(** * University rankings dashboard: aggregation and filtering pipeline

    A shallow embedding of [app.py] (the Streamlit dashboard) and of
    [university-rankings-analysis.py] (the static report script), together
    with the part of the pandas API those two files call.

    Conventions of the embedding.
    - A pandas [DataFrame] is a column store: a row count and an ordered list
      of named columns.  A column ([Series]) is one of the three dtypes the
      programs meet: [int64], [object] (text) and [category].
    - A Python exception is a value of [exn]; fallible code lives in the
      [result] monad.
    - Percentages are kept as exact hundredths ([Z]); binary floating point
      error of the order of 1e-14 is not represented.  A non-finite float
      (the outcome of a division by zero) is [None].
    - Chart construction (plotly, matplotlib, seaborn) is rendering only; a
      chart function is embedded as the data it hands to the chart.  The
      one refusal of the chart library the programs can meet is kept:
      [px.bar] on two empty arguments ([px_bar]).
    - The mean of a rank column is kept as an exact quotient; the
      properties of the average are stated in the range where binary64
      gives the same integer part (see [pd.mean]).
    - The sort inside [value_counts] is the library's default, which is not
      a stable one; it is an interface ([Nargsort]) with a contract
      ([sorts_descending]), so that no statement rests on the order it
      gives to equal counts. *)

From Stdlib Require Import ZArith String Ascii Bool List Lia.
From Stdlib Require Import Sorting.Sorted Sorting.Permutation.
From Stdlib Require Import Numbers.DecimalString.
Import ListNotations.

Local Open Scope string_scope.
Local Open Scope Z_scope.

(** ** Exceptions and the error monad *)

Inductive exn : Type :=
| KeyError (column : string)
| TypeError
| ValueError (message : string)
| FileNotFoundError (path : string)
| EmptyDataError.

Inductive result (A : Type) : Type :=
| Ok (a : A)
| Raise (e : exn).

Arguments Ok {A} a.
Arguments Raise {A} e.

Definition bind {A B : Type} (m : result A) (k : A -> result B) : result B :=
  match m with
  | Ok a => k a
  | Raise e => Raise e
  end.

Notation "x <- m ;; k" := (bind m (fun x => k))
  (at level 61, m at next level, right associativity).

(** ** The pandas data model *)

(** An extended integer: the bin edges of [pd.cut] contain [float('inf')]. *)
Inductive edge : Type :=
| Fin (z : Z)
| Inf.

Definition edge_ltb (e : edge) (x : Z) : bool :=
  match e with
  | Fin z => z <? x
  | Inf => false
  end.

(** A column.  A categorical column is, as in pandas, a list of category
    names and one code per row; [None] is the missing value (code -1). *)
Inductive Series : Type :=
| IntSeries (values : list Z)
| ObjSeries (values : list string)
| CatSeries (categories : list string) (codes : list (option nat)).

(** The index entry of a counted value. *)
Inductive label : Type :=
| LInt (z : Z)
| LStr (s : string).

Record DataFrame : Type := mkDataFrame {
  nrows : nat;
  columns : list (string * Series)
}.

Definition series_len (s : Series) : nat :=
  match s with
  | IntSeries v => length v
  | ObjSeries v => length v
  | CatSeries _ c => length c
  end.

(** [df[name]] *)
Fixpoint lookup (name : string) (cols : list (string * Series)) : option Series :=
  match cols with
  | [] => None
  | (n, s) :: rest => if String.eqb n name then Some s else lookup name rest
  end.

Definition getitem (df : DataFrame) (name : string) : result Series :=
  match lookup name (columns df) with
  | Some s => Ok s
  | None => Raise (KeyError name)
  end.

(** [df[name] = s]: an existing column is replaced in place, a new one is
    appended after the others. *)
Fixpoint assign (name : string) (s : Series) (cols : list (string * Series))
  : list (string * Series) :=
  match cols with
  | [] => [(name, s)]
  | (n, s0) :: rest =>
      if String.eqb n name then (n, s) :: rest else (n, s0) :: assign name s rest
  end.

Definition setitem (df : DataFrame) (name : string) (s : Series) : DataFrame :=
  mkDataFrame (nrows df) (assign name s (columns df)).

Definition column_names (df : DataFrame) : list string := map fst (columns df).

(** ** The pandas operations the programs call *)

(** The sort of [value_counts] orders the column of counts alone: from the
    counts it computes an indexer, the positions in the order in which they
    are to be taken, and the keys follow.  Which indexer the library
    computes when counts are equal depends on its sorting routine. *)
Class Nargsort : Type := nargsort_desc : list nat -> list nat.

Module pd.

(** [bins.searchsorted(x, side='left')] on an increasing array: the number
    of edges strictly below [x]. *)
Fixpoint searchsorted_left (bins : list edge) (x : Z) : nat :=
  match bins with
  | [] => 0
  | b :: rest => if edge_ltb b x then S (searchsorted_left rest x) else 0
  end.

(** The code [pd.cut] gives one value (right-closed bins): the position
    [i] of the bin [(bins[i], bins[i+1]]] that holds it, missing when the
    value lies at or below the first edge or above the last. *)
Definition cut_code (bins : list edge) (x : Z) : option nat :=
  let ids := searchsorted_left bins x in
  if (Nat.eqb ids 0 || Nat.eqb ids (length bins))%bool then None
  else Some (Nat.pred ids).

(** [pd.cut(series, bins=..., labels=...)] *)
Definition cut (s : Series) (bins : list edge) (labels : list string)
  : result Series :=
  match s with
  | IntSeries v => Ok (CatSeries labels (map (cut_code bins) v))
  | _ => Raise TypeError
  end.

(** *** Counting values

    [Series.value_counts()] first tallies the values with a hash table whose
    keys stay in the order they were first met, then sorts the tally by
    count, largest first. *)

Section Tally.

Context {A : Type} (eqb : A -> A -> bool).

(** One more occurrence of [x]: its count goes up, or it enters last. *)
Fixpoint bump (x : A) (table : list (A * nat)) : list (A * nat) :=
  match table with
  | [] => [(x, 1%nat)]
  | (k, c) :: rest =>
      if eqb k x then (k, S c) :: rest else (k, c) :: bump x rest
  end.

Definition tally_from (table : list (A * nat)) (l : list A) : list (A * nat) :=
  fold_left (fun t x => bump x t) l table.

Definition tally (l : list A) : list (A * nat) := tally_from [] l.

(** [Series.unique()]: the distinct values in order of first appearance. *)
Definition add_unique (seen : list A) (x : A) : list A :=
  if existsb (eqb x) seen then seen else seen ++ [x].

Definition unique_from (seen : list A) (l : list A) : list A :=
  fold_left add_unique l seen.

Definition unique (l : list A) : list A := unique_from [] l.

End Tally.

(** [values.take(indexer)]: the entries at the positions of the indexer. *)
Definition take {A : Type} (l : list A) (indexer : list nat) : list A :=
  flat_map (fun i => match nth_error l i with Some x => [x] | None => [] end)
           indexer.

(** [sort_values(ascending=False)] on a tally: the entries are taken in the
    order the library finds for their counts. *)
Definition sort_values_desc {N : Nargsort} {K : Type} (l : list (K * nat))
  : list (K * nat) :=
  take l (nargsort_desc (map snd l)).

(** One sorting routine: insertion, which is what the library's default
    runs on a short array.  An entry is placed in front of the first entry
    whose count does not exceed its own. *)
Fixpoint insert_desc {K : Type} (e : K * nat) (sorted : list (K * nat))
  : list (K * nat) :=
  match sorted with
  | [] => [e]
  | h :: rest =>
      if (snd e <? snd h)%nat then h :: insert_desc e rest else e :: h :: rest
  end.

Fixpoint insertion_sort_desc {K : Type} (l : list (K * nat)) : list (K * nat) :=
  match l with
  | [] => []
  | e :: rest => insert_desc e (insertion_sort_desc rest)
  end.

Definition insertion_nargsort : Nargsort :=
  fun counts =>
    map fst (insertion_sort_desc (combine (seq 0 (length counts)) counts)).

(** Occurrences of category code [i]; missing values are never counted. *)
Definition count_code (i : nat) (codes : list (option nat)) : nat :=
  length (filter (fun c => match c with Some j => Nat.eqb j i | None => false end) codes).

(** The tally of a categorical column has one entry per category, in
    category order, whether or not the category occurs. *)
Definition category_tally (categories : list string) (codes : list (option nat))
  : list (label * nat) :=
  map (fun ic => (LStr (snd ic), count_code (fst ic) codes))
      (combine (seq 0 (length categories)) categories).

Definition relabel {A : Type} (f : A -> label) (t : list (A * nat)) : list (label * nat) :=
  map (fun kc => (f (fst kc), snd kc)) t.

Definition value_tally (s : Series) : list (label * nat) :=
  match s with
  | IntSeries v => relabel LInt (tally Z.eqb v)
  | ObjSeries v => relabel LStr (tally String.eqb v)
  | CatSeries categories codes => category_tally categories codes
  end.

Definition value_counts {N : Nargsort} (s : Series) : list (label * nat) :=
  sort_values_desc (value_tally s).

(** [len(series.unique())] *)
Definition nunique (s : Series) : nat :=
  match s with
  | IntSeries v => length (unique Z.eqb v)
  | ObjSeries v => length (unique String.eqb v)
  | CatSeries _ codes =>
      length (unique (fun a b => match a, b with
                                 | Some i, Some j => Nat.eqb i j
                                 | None, None => true
                                 | _, _ => false
                                 end) codes)
  end.

(** [.head(n)]: the first [n] entries; for a negative [n], all but the last
    [-n]. *)
Definition head {A : Type} (n : Z) (l : list A) : list A :=
  if 0 <=? n then firstn (Z.to_nat n) l
  else firstn (length l - Z.to_nat (- n)) l.

(** *** Row selection *)

(** [series.isin(values)] for a list of text values. *)
Definition isin (s : Series) (values : list string) : list bool :=
  match s with
  | IntSeries v => map (fun _ => false) v
  | ObjSeries v => map (fun x => existsb (String.eqb x) values) v
  | CatSeries categories codes =>
      map (fun c => match c with
                    | Some i => match nth_error categories i with
                                | Some name => existsb (String.eqb name) values
                                | None => false
                                end
                    | None => false
                    end) codes
  end.

(** [series >= x] and [series <= x] against an integer.  A text column
    compares cell by cell, so one without cells has nothing to refuse and
    gives the empty mask. *)
Definition ge (s : Series) (x : Z) : result (list bool) :=
  match s with
  | IntSeries v => Ok (map (fun r => x <=? r) v)
  | ObjSeries [] => Ok []
  | _ => Raise TypeError
  end.

Definition le (s : Series) (x : Z) : result (list bool) :=
  match s with
  | IntSeries v => Ok (map (fun r => r <=? x) v)
  | ObjSeries [] => Ok []
  | _ => Raise TypeError
  end.

(** [a & b] on boolean columns. *)
Fixpoint band (a b : list bool) : list bool :=
  match a, b with
  | x :: a', y :: b' => (x && y)%bool :: band a' b'
  | _, _ => []
  end.

Fixpoint select {A : Type} (mask : list bool) (l : list A) : list A :=
  match mask, l with
  | b :: mask', x :: l' => if b then x :: select mask' l' else select mask' l'
  | _, _ => []
  end.

Definition select_series (mask : list bool) (s : Series) : Series :=
  match s with
  | IntSeries v => IntSeries (select mask v)
  | ObjSeries v => ObjSeries (select mask v)
  | CatSeries categories codes => CatSeries categories (select mask codes)
  end.

(** [df[mask]]: a new frame with the rows where the mask holds. *)
Definition boolean_index (df : DataFrame) (mask : list bool) : DataFrame :=
  mkDataFrame (length (filter (fun b => b) (firstn (nrows df) mask)))
              (map (fun c => (fst c, select_series mask (snd c))) (columns df)).

(** *** Numbers *)

(** A float that is either not-a-number or an exact quotient. *)
Inductive float : Type :=
| NaN
| Quot (num : Z) (den : Z).

(** [series.mean()]: the sum over the length; NaN on an empty column.  The
    library adds and divides in binary64; the exact quotient kept here has
    the same integer part as long as the ranks are not negative and their
    sum plus their number stays below 2^53, the range in which every
    partial sum is exact and the rounded quotient cannot reach the next
    integer.  The properties of the average carry that bound. *)
Definition mean (s : Series) : result float :=
  match s with
  | IntSeries [] => Ok NaN
  | IntSeries v => Ok (Quot (fold_right Z.add 0 v) (Z.of_nat (length v)))
  | _ => Raise TypeError
  end.

(** [np.round] rounds halves to the even neighbour.  [round_half_even n d]
    is the integer nearest to [n / d], for [d > 0].  On an exact tie the
    library rounds a binary64 value that may lie on either side of the
    half, so there the last digit can differ by one. *)
Definition round_half_even (n d : Z) : Z :=
  let q := n / d in
  let r := n mod d in
  if 2 * r <? d then q
  else if d <? 2 * r then q + 1
  else if Z.even q then q else q + 1.

(** [(counts / total * 100).round(2)] on one count, in hundredths of a
    percent; a zero total makes the quotient non-finite. *)
Definition share_of_total (total : nat) (count : nat) : option Z :=
  match total with
  | O => None
  | _ => Some (round_half_even (Z.of_nat count * 10000) (Z.of_nat total))
  end.

Definition fadd (a b : option Z) : option Z :=
  match a, b with
  | Some x, Some y => Some (x + y)
  | _, _ => None
  end.

(** [series.cumsum()] *)
Fixpoint cumsum_from (acc : option Z) (l : list (option Z)) : list (option Z) :=
  match l with
  | [] => []
  | x :: rest => let acc' := fadd acc x in acc' :: cumsum_from acc' rest
  end.

Definition cumsum (l : list (option Z)) : list (option Z) := cumsum_from (Some 0) l.

(** *** Reading a CSV file

    The file system maps a path to the parsed text of a file: its lines, each
    split into fields, the header line first.  Tokenising (quotes, separators)
    is not modelled, and neither are missing cells: an absent field reads as
    empty text.  The names in the header line are taken to be distinct
    (pandas renames a repeated name).  A column whose cells are all integer
    literals becomes an [int64] column, any other column a text column.
    Only plain decimal literals count as integers here; pandas also reads
    a literal with a plus sign or with blanks around it, and keeps one
    that does not fit 64 bits as text.  What is proved of a loaded table
    rests on its column names and its row count, not on the dtypes found
    here; the properties of the page are stated of the table as loaded. *)

Definition FileSystem : Type := string -> option (list (list string)).

Definition parse_int (cell : string) : option Z :=
  match cell with
  | "" | "-" => None
  | _ => option_map Z.of_int (NilEmpty.int_of_string cell)
  end.

Fixpoint parse_ints (cells : list string) : option (list Z) :=
  match cells with
  | [] => Some []
  | c :: rest =>
      match parse_int c, parse_ints rest with
      | Some z, Some zs => Some (z :: zs)
      | _, _ => None
      end
  end.

Definition infer_series (cells : list string) : Series :=
  match cells with
  | [] => ObjSeries []
  | _ => match parse_ints cells with
         | Some zs => IntSeries zs
         | None => ObjSeries cells
         end
  end.

Definition field (i : nat) (row : list string) : string := nth i row "".

Definition read_csv (fs : FileSystem) (path : string) : result DataFrame :=
  match fs path with
  | None => Raise (FileNotFoundError path)
  | Some [] => Raise EmptyDataError
  | Some (header :: rows) =>
      Ok (mkDataFrame (length rows)
            (map (fun ih => (snd ih, infer_series (map (field (fst ih)) rows)))
                 (combine (seq 0 (length header)) header)))
  end.

(** *** Further column operations *)

(** What [series.min()] and [series.max()] return: a number, a text, or NaN
    on a column without values. *)
Inductive scalar : Type :=
| SInt (z : Z)
| SText (s : string)
| SNaN.

Definition least {A : Type} (leb : A -> A -> bool) (x : A) (l : list A) : A :=
  fold_left (fun m y => if leb y m then y else m) l x.

Definition greatest {A : Type} (leb : A -> A -> bool) (x : A) (l : list A) : A :=
  fold_left (fun m y => if leb m y then y else m) l x.

(** The codes of a categorical column that are not missing. *)
Definition present (codes : list (option nat)) : list nat :=
  flat_map (fun c => match c with Some i => [i] | None => [] end) codes.

Definition category_scalar (categories : list string) (i : nat) : scalar :=
  match nth_error categories i with
  | Some name => SText name
  | None => SNaN
  end.

(** [series.min()]; a categorical column is ordered by its codes. *)
Definition smin (s : Series) : scalar :=
  match s with
  | IntSeries [] => SNaN
  | IntSeries (x :: v) => SInt (least Z.leb x v)
  | ObjSeries [] => SNaN
  | ObjSeries (x :: v) => SText (least String.leb x v)
  | CatSeries categories codes =>
      match present codes with
      | [] => SNaN
      | i :: rest => category_scalar categories (least Nat.leb i rest)
      end
  end.

(** [series.max()] *)
Definition smax (s : Series) : scalar :=
  match s with
  | IntSeries [] => SNaN
  | IntSeries (x :: v) => SInt (greatest Z.leb x v)
  | ObjSeries [] => SNaN
  | ObjSeries (x :: v) => SText (greatest String.leb x v)
  | CatSeries categories codes =>
      match present codes with
      | [] => SNaN
      | i :: rest => category_scalar categories (greatest Nat.leb i rest)
      end
  end.

(** [series.isin(index)] for the index of a tally. *)
Definition isin_index (s : Series) (index : list label) : list bool :=
  match s with
  | IntSeries v =>
      map (fun x => existsb (fun k => match k with LInt z => z =? x | LStr _ => false end)
                            index) v
  | ObjSeries v =>
      map (fun x => existsb (fun k => match k with LStr t => String.eqb t x | LInt _ => false end)
                            index) v
  | CatSeries categories codes =>
      map (fun c => match c with
                    | Some i =>
                        match nth_error categories i with
                        | Some name =>
                            existsb (fun k => match k with
                                              | LStr t => String.eqb t name
                                              | LInt _ => false
                                              end) index
                        | None => false
                        end
                    | None => false
                    end) codes
  end.

End pd.

(** Python's [int(x)] on a float: truncation toward zero; NaN is refused. *)
Definition int_of_float (x : pd.float) : result Z :=
  match x with
  | pd.NaN => Raise (ValueError "cannot convert float NaN to integer")
  | pd.Quot n d => Ok (Z.quot n d)
  end.

(** Python's [int(x)] on what a column's [min()] or [max()] returned.  Of
    the texts [int] accepts, the integer literals of [pd.parse_int] are
    modelled. *)
Definition int_of_scalar (x : pd.scalar) : result Z :=
  match x with
  | pd.SInt z => Ok z
  | pd.SNaN => Raise (ValueError "cannot convert float NaN to integer")
  | pd.SText s =>
      match pd.parse_int s with
      | Some z => Ok z
      | None => Raise (ValueError "invalid literal for int() with base 10")
      end
  end.

(** Python's [sorted] on a list whose order is [leb]. *)
Fixpoint insert_sorted {A : Type} (leb : A -> A -> bool) (x : A) (l : list A) : list A :=
  match l with
  | [] => [x]
  | y :: rest => if leb x y then x :: y :: rest else y :: insert_sorted leb x rest
  end.

Definition sorted {A : Type} (leb : A -> A -> bool) (l : list A) : list A :=
  fold_right (insert_sorted leb) [] l.

(** ** Excellence clusters ([app.py] 89-96, script 134-138) *)

Definition cluster_bins : list edge := [Fin 0; Fin 100; Fin 500; Fin 1000; Fin 5000; Inf].

Definition cluster_labels : list string :=
  ["Elite (1-100)"; "Premier (101-500)"; "Distinguished (501-1000)";
   "Notable (1001-5000)"; "Emerging (5000+)"].

(** The label one rank receives: the category named by its code. *)
Definition assign_excellence_cluster (rank : Z) : option string :=
  match pd.cut_code cluster_bins rank with
  | Some i => nth_error cluster_labels i
  | None => None
  end.

(** ** The dashboard ([app.py]) *)

Section Dashboard.

Context {N : Nargsort}.

(** [load_data] (35-38) reads the one file the dashboard knows.  The
    decorator [st.cache_data] only saves the result for later runs. *)
Definition load_data (fs : pd.FileSystem) : result DataFrame :=
  df <- pd.read_csv fs "top universities.csv" ;;
  Ok df.

(** [create_world_map] (41-61): the per-country counts given to the map. *)
Definition create_world_map (df : DataFrame) : result (list (label * nat)) :=
  c <- getitem df "Country" ;;
  let country_counts := pd.value_counts c in
  Ok country_counts.

(** [px.bar(x=..., y=...)] without a data frame, on the two sides of one
    counted column: the chart is the entries it draws.  With both
    arguments empty plotly takes each for a list of column references and
    refuses the pair. *)
Definition px_bar (data : list (label * nat)) : result (list (label * nat)) :=
  match data with
  | [] => Raise (ValueError
            "Cannot accept list of column references or list of columns for both `x` and `y`.")
  | _ :: _ => Ok data
  end.

(** [create_top_countries_chart] (63-75) *)
Definition create_top_countries_chart (df : DataFrame) (num_countries : Z)
  : result (list (label * nat)) :=
  c <- getitem df "Country" ;;
  let top_countries := pd.head num_countries (pd.value_counts c) in
  fig <- px_bar top_countries ;;
  Ok fig.

(** [create_ranking_distribution] (77-87): the column handed to the
    histogram; the binning is the chart library's. *)
Definition create_ranking_distribution (df : DataFrame) : result Series :=
  getitem df "Global Rank".

(** [create_excellence_clusters] (89-112).  The function assigns a column
    of the frame it is given, so the frame after the call is part of its
    outcome. *)
Definition create_excellence_clusters (df : DataFrame)
  : result (DataFrame * list (label * nat)) :=
  r <- getitem df "Global Rank" ;;
  cl <- pd.cut r cluster_bins cluster_labels ;;
  let df := setitem df "Ranking_Cluster" cl in
  rc <- getitem df "Ranking_Cluster" ;;
  let cluster_counts := pd.value_counts rc in
  Ok (df, cluster_counts).

(** [create_top_cities_chart] (114-129) *)
Definition create_top_cities_chart (df : DataFrame) (num_cities : Z)
  : result (list (label * nat)) :=
  c <- getitem df "City" ;;
  let top_cities := pd.head num_cities (pd.value_counts c) in
  fig <- px_bar top_cities ;;
  Ok fig.

(** The filter step of [main] (166-173), with the two sidebar selections as
    arguments. *)
Definition main_filter (df : DataFrame) (selected_countries : list string)
  (rank_range : Z * Z) : result DataFrame :=
  let filtered_df := df in
  filtered_df <-
    match selected_countries with
    | [] => Ok filtered_df
    | _ => c <- getitem filtered_df "Country" ;;
           Ok (pd.boolean_index filtered_df (pd.isin c selected_countries))
    end ;;
  r1 <- getitem filtered_df "Global Rank" ;;
  lower <- pd.ge r1 (fst rank_range) ;;
  r2 <- getitem filtered_df "Global Rank" ;;
  upper <- pd.le r2 (snd rank_range) ;;
  Ok (pd.boolean_index filtered_df (pd.band lower upper)).

(** What the page has shown so far, and how the script went on. *)
Inductive event : Type :=
| Metric (name : string) (value : Z).

Definition ui (A : Type) : Type := list event * result A.

Definition ui_bind {A B : Type} (m : ui A) (k : A -> ui B) : ui B :=
  match snd m with
  | Ok a => ((fst m ++ fst (k a))%list, snd (k a))
  | Raise e => (fst m, Raise e)
  end.

Definition eval {A : Type} (r : result A) : ui A := ([], r).

Definition st_metric (name : string) (value : Z) : ui unit :=
  ([Metric name value], Ok tt).

Notation "x <~ m ;; k" := (ui_bind m (fun x => k))
  (at level 61, m at next level, right associativity).

(** The key metrics of [main] (179-186). *)
Definition main_key_metrics (filtered_df : DataFrame) : ui unit :=
  _ <~ st_metric "Total Universities" (Z.of_nat (nrows filtered_df)) ;;
  c <~ eval (getitem filtered_df "Country") ;;
  _ <~ st_metric "Countries" (Z.of_nat (pd.nunique c)) ;;
  c <~ eval (getitem filtered_df "City") ;;
  _ <~ st_metric "Cities" (Z.of_nat (pd.nunique c)) ;;
  r <~ eval (getitem filtered_df "Global Rank") ;;
  m <~ eval (pd.mean r) ;;
  a <~ eval (int_of_float m) ;;
  st_metric "Average Rank" a.

(** The sidebar of [main] (141-164): the country options and the bounds of
    the rank slider.  What the user then picks, the selected countries, the
    rank range and the number of entries, are arguments of the steps below.
    A categorical country column is sorted by label; with a missing value
    among them the comparison of a float with a text raises. *)
Definition main_sidebar (df : DataFrame) : result (list label * (Z * Z)) :=
  c <- getitem df "Country" ;;
  options <-
    match c with
    | IntSeries v => Ok (map LInt (sorted Z.leb (pd.unique Z.eqb v)))
    | ObjSeries v => Ok (map LStr (sorted String.leb (pd.unique String.eqb v)))
    | CatSeries categories codes =>
        if forallb (fun c => match c with Some _ => true | None => false end) codes
        then Ok (map LStr
                   (sorted String.leb
                      (flat_map (fun i => match nth_error categories i with
                                          | Some name => [name]
                                          | None => []
                                          end)
                                (pd.unique Nat.eqb (pd.present codes)))))
        else Raise TypeError
    end ;;
  r1 <- getitem df "Global Rank" ;;
  min_value <- int_of_scalar (pd.smin r1) ;;
  r2 <- getitem df "Global Rank" ;;
  max_value <- int_of_scalar (pd.smax r2) ;;
  Ok (options, (min_value, max_value)).

(** What a chart is drawn from. *)
Inductive chart_data : Type :=
| Counts (counts : list (label * nat))
| Column (values : Series).

(** What the page shows: a metric, a chart, or a table. *)
Inductive element : Type :=
| Shown (metric : event)
| PlotlyChart (data : chart_data)
| Dataframe (df : DataFrame).

Definition page (A : Type) : Type := list element * result A.

Definition page_bind {A B : Type} (m : page A) (k : A -> page B) : page B :=
  match snd m with
  | Ok a => ((fst m ++ fst (k a))%list, snd (k a))
  | Raise e => (fst m, Raise e)
  end.

Notation "x <~~ m ;; k" := (page_bind m (fun x => k))
  (at level 61, m at next level, right associativity).

Definition run {A : Type} (r : result A) : page A := ([], r).

Definition st_plotly_chart (data : chart_data) : page unit :=
  ([PlotlyChart data], Ok tt).

Definition st_dataframe (df : DataFrame) : page unit := ([Dataframe df], Ok tt).

Definition metrics_on_page (m : ui unit) : page unit := (map Shown (fst m), snd m).

(** [main] after the table is loaded (136-218).  Titles and headers are
    text only.  [show_raw_data] is the state of the checkbox. *)
Definition main_page (df : DataFrame) (selected_countries : list string)
  (rank_range : Z * Z) (num_entries : Z) (show_raw_data : bool) : page unit :=
  _ <~~ run (main_sidebar df) ;;
  filtered_df <~~ run (main_filter df selected_countries rank_range) ;;
  _ <~~ metrics_on_page (main_key_metrics filtered_df) ;;
  fig <~~ run (create_world_map filtered_df) ;;
  _ <~~ st_plotly_chart (Counts fig) ;;
  fig <~~ run (create_top_countries_chart filtered_df num_entries) ;;
  _ <~~ st_plotly_chart (Counts fig) ;;
  fig <~~ run (create_top_cities_chart filtered_df num_entries) ;;
  _ <~~ st_plotly_chart (Counts fig) ;;
  fig <~~ run (create_ranking_distribution filtered_df) ;;
  _ <~~ st_plotly_chart (Column fig) ;;
  clustered <~~ run (create_excellence_clusters filtered_df) ;;
  let filtered_df := fst clustered in
  _ <~~ st_plotly_chart (Counts (snd clustered)) ;;
  if show_raw_data then st_dataframe filtered_df else ([], Ok tt).

(** [main] (132-218): the table is loaded, then the page is built. *)
Definition main (fs : pd.FileSystem) (selected_countries : list string)
  (rank_range : Z * Z) (num_entries : Z) (show_raw_data : bool) : page unit :=
  df <~~ run (load_data fs) ;;
  main_page df selected_countries rank_range num_entries show_raw_data.

End Dashboard.

(** ** The report script ([university-rankings-analysis.py])

    The script keeps the table in the module-level variable [df]; each of
    its functions is embedded as a function of that variable's value. *)

Section Script.

Context {N : Nargsort}.

Definition rank_bracket_labels : list string :=
  ["Top 10%"; "10-20%"; "20-30%"; "30-40%"; "40-50%"; "50-60%"; "60-70%";
   "70-80%"; "80-90%"; "Bottom 10%"].

(** [analyze_ranking_distribution] (62-78) assigns the column
    [Rank_Bracket] of the global table.  [pd.qcut] computes quantile edges
    in floating point; it is taken as an argument, a function from the
    column, the number of quantiles and the labels to a categorical column
    or an exception. *)
Definition analyze_ranking_distribution
  (qcut : Series -> nat -> list string -> result Series) (df : DataFrame)
  : result (DataFrame * list (label * nat)) :=
  r <- getitem df "Global Rank" ;;
  rb <- qcut r 10%nat rank_bracket_labels ;;
  let df := setitem df "Rank_Bracket" rb in
  c <- getitem df "Rank_Bracket" ;;
  Ok (df, pd.value_counts c).

(** [analyze_excellence_clusters] (132-153) assigns a column of the global
    table. *)
Definition analyze_excellence_clusters (df : DataFrame)
  : result (DataFrame * list (label * nat)) :=
  r <- getitem df "Global Rank" ;;
  cl <- pd.cut r cluster_bins cluster_labels ;;
  let df := setitem df "Ranking_Cluster" cl in
  rc <- getitem df "Ranking_Cluster" ;;
  let cluster_counts := pd.value_counts rc in
  Ok (df, cluster_counts).

Record ConcentrationRow : Type := mkConcentrationRow {
  Country : label;
  University_Count : nat;
  Share_of_Total : option Z;
  Cumulative_Share : option Z
}.

Fixpoint concentration_frame (counts : list (label * nat))
  (shares cumulative : list (option Z)) : list ConcentrationRow :=
  match counts, shares, cumulative with
  | (k, c) :: counts', s :: shares', q :: cumulative' =>
      mkConcentrationRow k c s q :: concentration_frame counts' shares' cumulative'
  | _, _, _ => []
  end.

(** [calculate_concentration_index] (156-184) *)
Definition calculate_concentration_index (df : DataFrame)
  : result (list ConcentrationRow) :=
  c <- getitem df "Country" ;;
  let country_counts := pd.value_counts c in
  let total_unis := nrows df in
  let share := map (fun kc => pd.share_of_total total_unis (snd kc)) country_counts in
  let concentration_index :=
    concentration_frame country_counts share (pd.cumsum share) in
  Ok (pd.head 10 concentration_index).

(** [create_university_map] (21-42): the per-country counts of the global
    table. *)
Definition create_university_map (df : DataFrame) : result (list (label * nat)) :=
  c <- getitem df "Country" ;;
  let country_counts := pd.value_counts c in
  Ok country_counts.

(** [plot_top_countries] (45-59) *)
Definition plot_top_countries (df : DataFrame) : result (list (label * nat)) :=
  c <- getitem df "Country" ;;
  let top_countries := pd.head 15 (pd.value_counts c) in
  Ok top_countries.

(** [analyze_university_cities] (81-95) *)
Definition analyze_university_cities (df : DataFrame) : result (list (label * nat)) :=
  c <- getitem df "City" ;;
  let top_cities := pd.head 15 (pd.value_counts c) in
  Ok top_cities.

(** [analyze_top_100] (98-108): the slices of the pie. *)
Definition analyze_top_100 (df : DataFrame) : result (list (label * nat)) :=
  r <- getitem df "Global Rank" ;;
  mask <- pd.le r 100 ;;
  let top_100 := pd.boolean_index df mask in
  c <- getitem top_100 "Country" ;;
  Ok (pd.value_counts c).

(** A column named to [px.scatter]; the chart library refuses a name that
    is not a column with a [ValueError] (its message is shortened here). *)
Definition px_column (df : DataFrame) (name : string) : result Series :=
  match lookup name (columns df) with
  | Some s => Ok s
  | None => Raise (ValueError "not the name of a column in data_frame")
  end.

(** [create_rankings_explorer] (111-129): the table given to the scatter
    plot, the rows of the twenty most frequent countries. *)
Definition create_rankings_explorer (df : DataFrame) : result DataFrame :=
  c <- getitem df "Country" ;;
  let top_20_countries := map fst (pd.head 20 (pd.value_counts c)) in
  c <- getitem df "Country" ;;
  let df_top_countries := pd.boolean_index df (pd.isin_index c top_20_countries) in
  _ <- px_column df_top_countries "Global Rank" ;;
  _ <- px_column df_top_countries "Country" ;;
  _ <- px_column df_top_countries "University" ;;
  _ <- px_column df_top_countries "City" ;;
  Ok df_top_countries.

End Script.

(** * Vocabulary of the properties *)

(** ** Tallies *)

(** Occurrences of [x] in [l]. *)
Definition occurrences {A : Type} (eqb : A -> A -> bool) (x : A) (l : list A) : nat :=
  length (filter (eqb x) l).

(** The sum of the counts of a tally. *)
Definition total_count {K : Type} (t : list (K * nat)) : nat :=
  fold_right Nat.add 0%nat (map snd t).

(** The count a tally holds for [k]; zero when [k] is not a key. *)
Fixpoint count_of {A : Type} (eqb : A -> A -> bool) (k : A) (t : list (A * nat)) : nat :=
  match t with
  | [] => 0%nat
  | (k0, c) :: rest => if eqb k0 k then c else count_of eqb k rest
  end.

(** [a] may stand before [b]: its count is not the smaller one. *)
Definition desc {K : Type} (a b : K * nat) : Prop := (snd b <= snd a)%nat.

(** The contract of the library's sort: the indexer holds every position
    once, and the counts taken in its order never increase. *)
Definition sorts_descending (N : Nargsort) : Prop :=
  forall counts : list nat,
    Permutation (nargsort_desc counts) (seq 0 (length counts)) /\
    StronglySorted ge (pd.take counts (nargsort_desc counts)).

(** ** Clusters *)

(** Rank [r] lies in the right-closed band [(lo, hi]]. *)
Definition in_band (lo : Z) (hi : edge) (r : Z) : bool :=
  ((lo <? r) && match hi with Fin h => r <=? h | Inf => true end)%bool.

Definition ranks_in (lo : Z) (hi : edge) (ranks : list Z) : nat :=
  length (filter (in_band lo hi) ranks).

(** The five clusters in band order, each with the number of ranks in its
    band. *)
Definition band_counts (ranks : list Z) : list (label * nat) :=
  [(LStr "Elite (1-100)", ranks_in 0 (Fin 100) ranks);
   (LStr "Premier (101-500)", ranks_in 100 (Fin 500) ranks);
   (LStr "Distinguished (501-1000)", ranks_in 500 (Fin 1000) ranks);
   (LStr "Notable (1001-5000)", ranks_in 1000 (Fin 5000) ranks);
   (LStr "Emerging (5000+)", ranks_in 5000 Inf ranks)].

Definition cluster_codes (ranks : list Z) : list (option nat) :=
  map (pd.cut_code cluster_bins) ranks.

(** ** Tables *)

(** Every column has as many cells as the frame has rows. *)
Definition aligned (df : DataFrame) : Prop :=
  Forall (fun c => series_len (snd c) = nrows df) (columns df).

(** A table as the loader is meant to deliver it: the four columns with
    their dtypes, aligned. *)
Definition well_formed (df : DataFrame) : Prop :=
  aligned df /\
  (exists ranks, getitem df "Global Rank" = Ok (IntSeries ranks)) /\
  (exists names, getitem df "University" = Ok (ObjSeries names)) /\
  (exists countries, getitem df "Country" = Ok (ObjSeries countries)) /\
  (exists cities, getitem df "City" = Ok (ObjSeries cities)).

(** The mask of the rank range. *)
Definition range_mask (lo hi : Z) (ranks : list Z) : list bool :=
  pd.band (map (fun r => lo <=? r) ranks) (map (fun r => r <=? hi) ranks).

Definition sum_ranks (ranks : list Z) : Z := fold_right Z.add 0 ranks.

(** The three counts among the key metrics. *)
Definition count_metrics (df : DataFrame) (countries cities : list string)
  : list event :=
  [Metric "Total Universities" (Z.of_nat (nrows df));
   Metric "Countries" (Z.of_nat (length (pd.unique String.eqb countries)));
   Metric "Cities" (Z.of_nat (length (pd.unique String.eqb cities)))].

(** Running sums: the cumulative sum of finite values, from [acc]. *)
Fixpoint running (acc : Z) (l : list Z) : list Z :=
  match l with
  | [] => []
  | z :: rest => (acc + z) :: running (acc + z) rest
  end.

(** The share of one count, in hundredths of a percent, for a positive
    total. *)
Definition share_hundredths (total : nat) (count : nat) : Z :=
  pd.round_half_even (Z.of_nat count * 10000) (Z.of_nat total).

(** ** The wording of the specification

    Three definitions follow the specification's sentences rather than the
    code, so that the two can be compared: the order and the length it
    gives for [topN], and its average rank. *)

(** Keys in ascending order: text lexicographically, numbers by value. *)
Definition label_leb (a b : label) : bool :=
  match a, b with
  | LInt x, LInt y => x <=? y
  | LStr x, LStr y => String.leb x y
  | LInt _, LStr _ => true
  | LStr _, LInt _ => false
  end.

(** [a] precedes [b] in the specification's order: a larger count, or the
    same count and a key that is not the larger one. *)
Definition spec_before (a b : label * nat) : bool :=
  ((snd b <? snd a)%nat || (Nat.eqb (snd a) (snd b) && label_leb (fst a) (fst b)))%bool.

Fixpoint spec_topN_order (l : list (label * nat)) : bool :=
  match l with
  | a :: (b :: _) as rest => (spec_before a b && spec_topN_order rest)%bool
  | _ => true
  end.

(** The specification's length of [topN]: [n] clamped to [[0, size]]. *)
Definition spec_topN_length (n : Z) (size : nat) : nat :=
  Z.to_nat (Z.max 0 (Z.min n (Z.of_nat size))).

(** The specification's average rank: the mean rounded to the nearest
    integer, and 0 on an empty table. *)
Definition spec_average_rank (ranks : list Z) : Z :=
  match ranks with
  | [] => 0
  | _ => (2 * sum_ranks ranks + Z.of_nat (length ranks)) / (2 * Z.of_nat (length ranks))
  end.

(** ** Example tables *)

Definition frame_AB : DataFrame :=
  mkDataFrame 2 [("Global Rank", IntSeries [1; 2]);
                 ("University", ObjSeries ["Alpha"; "Beta"]);
                 ("Country", ObjSeries ["A"; "B"]);
                 ("City", ObjSeries ["Ames"; "Bonn"])].

(** The same two records in the other order. *)
Definition frame_BA : DataFrame :=
  mkDataFrame 2 [("Global Rank", IntSeries [1; 2]);
                 ("University", ObjSeries ["Beta"; "Alpha"]);
                 ("Country", ObjSeries ["B"; "A"]);
                 ("City", ObjSeries ["Bonn"; "Ames"])].

Definition frame_three : DataFrame :=
  mkDataFrame 3 [("Global Rank", IntSeries [150; 200; 50]);
                 ("University", ObjSeries ["U1"; "U2"; "U3"]);
                 ("Country", ObjSeries ["USA"; "USA"; "UK"]);
                 ("City", ObjSeries ["NYC"; "LA"; "London"])].

Definition frame_with_rank_zero : DataFrame :=
  mkDataFrame 3 [("Global Rank", IntSeries [0; 50; -7]);
                 ("University", ObjSeries ["U0"; "U1"; "U2"]);
                 ("Country", ObjSeries ["USA"; "USA"; "UK"]);
                 ("City", ObjSeries ["NYC"; "LA"; "London"])].

Definition frame_empty : DataFrame :=
  mkDataFrame 0 [("Global Rank", IntSeries []);
                 ("University", ObjSeries []);
                 ("Country", ObjSeries []);
                 ("City", ObjSeries [])].

Definition frame_122 : DataFrame :=
  mkDataFrame 3 [("Global Rank", IntSeries [1; 2; 2]);
                 ("University", ObjSeries ["A"; "B"; "C"]);
                 ("Country", ObjSeries ["USA"; "USA"; "UK"]);
                 ("City", ObjSeries ["NYC"; "LA"; "London"])].

Definition frame_seven : DataFrame :=
  mkDataFrame 7
    [("Global Rank", IntSeries [1; 2; 3; 4; 5; 6; 7]);
     ("University", ObjSeries ["U1"; "U2"; "U3"; "U4"; "U5"; "U6"; "U7"]);
     ("Country", ObjSeries ["A"; "B"; "C"; "D"; "E"; "F"; "G"]);
     ("City", ObjSeries ["a"; "b"; "c"; "d"; "e"; "f"; "g"])].

Definition frame_eleven : DataFrame :=
  mkDataFrame 11
    [("Global Rank", IntSeries [1; 2; 3; 4; 5; 6; 7; 8; 9; 10; 11]);
     ("University",
      ObjSeries ["U1"; "U2"; "U3"; "U4"; "U5"; "U6"; "U7"; "U8"; "U9"; "U10"; "U11"]);
     ("Country", ObjSeries ["A"; "B"; "C"; "D"; "E"; "F"; "G"; "H"; "I"; "J"; "K"]);
     ("City", ObjSeries ["a"; "b"; "c"; "d"; "e"; "f"; "g"; "h"; "i"; "j"; "k"])].

(** [frame_three] after [create_excellence_clusters], and the counts the
    call returns. *)
Definition frame_three_clustered : DataFrame :=
  mkDataFrame 3 [("Global Rank", IntSeries [150; 200; 50]);
                 ("University", ObjSeries ["U1"; "U2"; "U3"]);
                 ("Country", ObjSeries ["USA"; "USA"; "UK"]);
                 ("City", ObjSeries ["NYC"; "LA"; "London"]);
                 ("Ranking_Cluster",
                  CatSeries cluster_labels [Some 1%nat; Some 1%nat; Some 0%nat])].

Definition counts_three : list (label * nat) :=
  [(LStr "Premier (101-500)", 2%nat); (LStr "Elite (1-100)", 1%nat);
   (LStr "Distinguished (501-1000)", 0%nat); (LStr "Notable (1001-5000)", 0%nat);
   (LStr "Emerging (5000+)", 0%nat)].

(** The example of the specification: three universities, two countries. *)
Definition frame_spec_example : DataFrame :=
  mkDataFrame 3 [("Global Rank", IntSeries [1; 2; 3]);
                 ("University", ObjSeries ["A"; "B"; "C"]);
                 ("Country", ObjSeries ["USA"; "USA"; "UK"]);
                 ("City", ObjSeries ["NYC"; "LA"; "London"])].


(** ** Rows *)

(** The row of a rank and a country passes the filter: its country is among
    the selected ones, when any is selected, and its rank is in the range. *)
Definition passes (selected_countries : list string) (lo hi : Z)
  (row : Z * string) : bool :=
  ((match selected_countries with
    | [] => true
    | _ => existsb (String.eqb (snd row)) selected_countries
    end) && ((lo <=? fst row) && (fst row <=? hi)))%bool.

(** The text [c] is one of the keys. *)
Definition among (keys : list label) (c : string) : bool :=
  existsb (fun k => match k with LStr t => String.eqb t c | LInt _ => false end) keys.

(** ** Further example tables *)

(** The table of a file that holds the header line only: a column
    without cells is a text column. *)
Definition frame_header_only : DataFrame :=
  mkDataFrame 0 [("Global Rank", ObjSeries []);
                 ("University", ObjSeries []);
                 ("Country", ObjSeries []);
                 ("City", ObjSeries [])].

(** One record, and no City column. *)
Definition frame_without_city : DataFrame :=
  mkDataFrame 1 [("Global Rank", IntSeries [1]);
                 ("University", ObjSeries ["MIT"]);
                 ("Country", ObjSeries ["USA"])].

(** The rows of [frame_three] in the USA. *)
Definition frame_usa : DataFrame :=
  mkDataFrame 2 [("Global Rank", IntSeries [150; 200]);
                 ("University", ObjSeries ["U1"; "U2"]);
                 ("Country", ObjSeries ["USA"; "USA"]);
                 ("City", ObjSeries ["NYC"; "LA"])].

(** The deciles [pd.qcut] finds for the three ranks of [frame_three]. *)
Definition deciles_of_three (s : Series) (q : nat) (labels : list string)
  : result Series :=
  Ok (CatSeries labels [Some 4%nat; Some 9%nat; Some 0%nat]).

(** * Properties *)

(** ** Excellence clusters *)

Ltac case_ltb :=
  repeat match goal with
         | |- context [?a <? ?b] => destruct (Z.ltb_spec a b); try lia
         | |- context [?a <=? ?b] => destruct (Z.leb_spec a b); try lia
         end.

Lemma cut_code_cluster_bins (rank : Z) :
  pd.cut_code cluster_bins rank =
  if rank <=? 0 then None
  else if rank <=? 100 then Some 0%nat
  else if rank <=? 500 then Some 1%nat
  else if rank <=? 1000 then Some 2%nat
  else if rank <=? 5000 then Some 3%nat
  else Some 4%nat.
Proof.
  unfold pd.cut_code, cluster_bins; simpl.
  case_ltb; reflexivity.
Qed.


(** ** Columns of a frame *)

Lemma lookup_assign_same name s cols :
  lookup name (assign name s cols) = Some s.
Proof.
  induction cols as [|[n s0] rest IH]; simpl.
  - now rewrite String.eqb_refl.
  - destruct (String.eqb n name) eqn:E; simpl; now rewrite E.
Qed.

Lemma lookup_assign_other name other s cols :
  other <> name -> lookup other (assign name s cols) = lookup other cols.
Proof.
  intros Hne. induction cols as [|[n s0] rest IH]; simpl.
  - destruct (String.eqb_spec name other); congruence.
  - destruct (String.eqb_spec n name) as [->|Hn]; simpl.
    + destruct (String.eqb_spec name other); congruence.
    + now rewrite IH.
Qed.

Lemma lookup_In name s cols : lookup name cols = Some s -> In (name, s) cols.
Proof.
  induction cols as [|[n s0] rest IH]; simpl; [discriminate|].
  destruct (String.eqb_spec n name) as [->|Hn].
  - intros [= ->]. now left.
  - intros H. right. now apply IH.
Qed.

Lemma lookup_map_snd (f : Series -> Series) name cols :
  lookup name (map (fun c => (fst c, f (snd c))) cols) = option_map f (lookup name cols).
Proof.
  induction cols as [|[n s0] rest IH]; simpl; [reflexivity|].
  destruct (String.eqb n name); [reflexivity | exact IH].
Qed.

Lemma getitem_Ok df name s :
  getitem df name = Ok s <-> lookup name (columns df) = Some s.
Proof.
  unfold getitem. destruct (lookup name (columns df)); split; congruence.
Qed.


Lemma column_names_assign name s cols :
  map fst (assign name s cols) =
  if existsb (String.eqb name) (map fst cols) then map fst cols
  else (map fst cols ++ [name])%list.
Proof.
  induction cols as [|[n s0] rest IH]; simpl; [reflexivity|].
  rewrite (String.eqb_sym name n).
  destruct (String.eqb n name); simpl; [reflexivity|].
  rewrite IH. now destruct (existsb (String.eqb name) (map fst rest)).
Qed.

(** The frame rule of [df[name] = s]. *)
Lemma setitem_frame df name s :
  nrows (setitem df name s) = nrows df /\
  getitem (setitem df name s) name = Ok s /\
  (forall other, other <> name ->
     getitem (setitem df name s) other = getitem df other) /\
  column_names (setitem df name s) =
    if existsb (String.eqb name) (column_names df) then column_names df
    else (column_names df ++ [name])%list.
Proof.
  unfold getitem, setitem, column_names. simpl.
  split; [reflexivity|].
  split; [now rewrite lookup_assign_same|].
  split; [intros other Hne; now rewrite lookup_assign_other|].
  apply column_names_assign.
Qed.

Lemma assign_assign name s cols :
  assign name s (assign name s cols) = assign name s cols.
Proof.
  induction cols as [|[n s0] rest IH]; simpl.
  - now rewrite String.eqb_refl.
  - destruct (String.eqb n name) eqn:E; simpl; rewrite E;
      [reflexivity | now rewrite IH].
Qed.

(** ** The tally of a column *)

Section TallyFacts.

Context {A : Type} (eqb : A -> A -> bool).
Hypothesis eqb_eq : forall a b, eqb a b = true <-> a = b.

Local Lemma eqb_refl a : eqb a a = true.
Proof. now apply eqb_eq. Qed.

Local Lemma eqb_neq a b : a <> b -> eqb a b = false.
Proof.
  intros H. destruct (eqb a b) eqn:E; [|reflexivity].
  apply eqb_eq in E. contradiction.
Qed.

Lemma tally_snoc l x : pd.tally eqb (l ++ [x]) = pd.bump eqb x (pd.tally eqb l).
Proof. unfold pd.tally, pd.tally_from. now rewrite fold_left_app. Qed.

Lemma unique_snoc l x :
  pd.unique eqb (l ++ [x]) = pd.add_unique eqb (pd.unique eqb l) x.
Proof. unfold pd.unique, pd.unique_from. now rewrite fold_left_app. Qed.

Lemma total_count_bump x t : total_count (pd.bump eqb x t) = S (total_count t).
Proof.
  unfold total_count.
  induction t as [|[k c] rest IH]; simpl; [reflexivity|].
  destruct (eqb k x); simpl; [reflexivity|]. rewrite IH. lia.
Qed.

(** The counts of a tally add up to the number of rows. *)
Lemma total_count_tally l : total_count (pd.tally eqb l) = length l.
Proof.
  induction l as [|x l IH] using rev_ind; [reflexivity|].
  rewrite tally_snoc, total_count_bump, IH, length_app. simpl. lia.
Qed.

Lemma keys_bump x t :
  map fst (pd.bump eqb x t) = pd.add_unique eqb (map fst t) x.
Proof.
  unfold pd.add_unique.
  induction t as [|[k c] rest IH]; simpl; [reflexivity|].
  destruct (eqb k x) eqn:E.
  - apply eqb_eq in E. subst k. now rewrite eqb_refl.
  - assert (eqb x k = false) as ->.
    { apply eqb_neq. intros ->. rewrite eqb_refl in E. discriminate. }
    simpl. rewrite IH. now destruct (existsb (eqb x) (map fst rest)).
Qed.

(** The keys of a tally are the distinct values, in order of first
    appearance. *)
Lemma keys_tally l : map fst (pd.tally eqb l) = pd.unique eqb l.
Proof.
  induction l as [|x l IH] using rev_ind; [reflexivity|].
  now rewrite tally_snoc, unique_snoc, keys_bump, IH.
Qed.

Lemma length_tally l : length (pd.tally eqb l) = length (pd.unique eqb l).
Proof. now rewrite <- keys_tally, length_map. Qed.

Lemma occurrences_snoc k l x :
  occurrences eqb k (l ++ [x]) = (occurrences eqb k l + if eqb k x then 1 else 0)%nat.
Proof.
  unfold occurrences. rewrite filter_app, length_app. simpl.
  now destruct (eqb k x).
Qed.

Lemma count_of_bump k x t :
  count_of eqb k (pd.bump eqb x t) = (count_of eqb k t + if eqb k x then 1 else 0)%nat.
Proof.
  induction t as [|[k0 c] rest IH]; simpl.
  - destruct (eqb x k) eqn:E.
    + apply eqb_eq in E. subst. now rewrite eqb_refl.
    + rewrite eqb_neq; [reflexivity|]. intros ->. now rewrite eqb_refl in E.
  - destruct (eqb k0 x) eqn:Ex; simpl.
    + apply eqb_eq in Ex. subst k0.
      destruct (eqb x k) eqn:Ek.
      * apply eqb_eq in Ek. subst. rewrite eqb_refl. lia.
      * rewrite eqb_neq; [lia|]. intros ->. now rewrite eqb_refl in Ek.
    + destruct (eqb k0 k) eqn:Ek; [|exact IH].
      apply eqb_eq in Ek. subst k0. rewrite Ex. lia.
Qed.

Lemma count_of_tally k l : count_of eqb k (pd.tally eqb l) = occurrences eqb k l.
Proof.
  induction l as [|x l IH] using rev_ind; [reflexivity|].
  now rewrite tally_snoc, count_of_bump, occurrences_snoc, IH.
Qed.

Lemma NoDup_unique l : NoDup (pd.unique eqb l).
Proof.
  induction l as [|x l IH] using rev_ind; [constructor|].
  rewrite unique_snoc. unfold pd.add_unique.
  destruct (existsb (eqb x) (pd.unique eqb l)) eqn:E; [exact IH|].
  apply NoDup_app; [exact IH | repeat constructor; intros [] |].
  intros a Ha [Hx|[]]. subst a.
  assert (existsb (eqb x) (pd.unique eqb l) = true) as Ht.
  { apply existsb_exists. exists x. split; [exact Ha | apply eqb_refl]. }
  congruence.
Qed.

Lemma count_of_In k c t : NoDup (map fst t) -> In (k, c) t -> count_of eqb k t = c.
Proof.
  induction t as [|[k0 c0] rest IH]; simpl; [tauto|].
  intros Hnd [[= -> ->]|Hin].
  - now rewrite eqb_refl.
  - inversion Hnd as [|? ? Hnotin Hnd']; subst.
    rewrite eqb_neq; [now apply IH|].
    intros ->. apply Hnotin. now apply (in_map fst) in Hin.
Qed.

(** Each entry of a tally holds the number of rows carrying its key. *)
Lemma tally_entry k c l : In (k, c) (pd.tally eqb l) -> c = occurrences eqb k l.
Proof.
  intros Hin. rewrite <- count_of_tally. symmetry.
  apply count_of_In; [|exact Hin].
  rewrite keys_tally. apply NoDup_unique.
Qed.

End TallyFacts.

Lemma string_eqb_eq (a b : string) : String.eqb a b = true <-> a = b.
Proof. apply String.eqb_eq. Qed.

Lemma In_relabel_LStr k c (t : list (string * nat)) :
  In (LStr k, c) (pd.relabel LStr t) -> In (k, c) t.
Proof.
  unfold pd.relabel. rewrite in_map_iff.
  intros [[k0 c0] [[= <- <-] Hin]]. exact Hin.
Qed.

Lemma keys_relabel {A : Type} (f : A -> label) (t : list (A * nat)) :
  map fst (pd.relabel f t) = map f (map fst t).
Proof. unfold pd.relabel. rewrite !map_map. reflexivity. Qed.

(** ** Prefixes *)

Lemma StronglySorted_firstn {A : Type} (R : A -> A -> Prop) n (l : list A) :
  StronglySorted R l -> StronglySorted R (firstn n l).
Proof.
  intros Hs. revert n.
  induction Hs as [|h rest Hs IH Hall]; intros [|n]; simpl; try constructor.
  - apply IH.
  - rewrite Forall_forall in *. intros x Hx. apply Hall.
    rewrite <- (firstn_skipn n rest). apply in_or_app. now left.
Qed.

Lemma firstn_length_firstn {A : Type} n (l : list A) :
  firstn (length (firstn n l)) l = firstn n l.
Proof.
  revert n. induction l as [|x rest IH]; intros [|n]; simpl; try reflexivity.
  now rewrite IH.
Qed.

Lemma head_prefix {A : Type} n (l : list A) :
  pd.head n l = firstn (length (pd.head n l)) l.
Proof.
  unfold pd.head. destruct (0 <=? n); now rewrite firstn_length_firstn.
Qed.

Lemma length_head {A : Type} n (l : list A) :
  length (pd.head n l) =
  if 0 <=? n then Nat.min (Z.to_nat n) (length l)
  else (length l - Z.to_nat (- n))%nat.
Proof.
  unfold pd.head. destruct (0 <=? n); rewrite length_firstn; lia.
Qed.

Lemma map_head {A B : Type} (f : A -> B) n (l : list A) :
  map f (pd.head n l) = pd.head n (map f l).
Proof.
  unfold pd.head. rewrite length_map. destruct (0 <=? n); symmetry; apply firstn_map.
Qed.

Lemma head_all {A : Type} n (l : list A) :
  0 <= n -> (length l <= Z.to_nat n)%nat -> pd.head n l = l.
Proof.
  intros Hn Hlen. unfold pd.head.
  destruct (Z.leb_spec 0 n); [now apply firstn_all2 | lia].
Qed.

Lemma filter_length_lt {A : Type} (p : A -> bool) (l : list A) :
  Exists (fun x => p x = false) l -> (length (filter p l) < length l)%nat.
Proof.
  induction 1 as [x rest Hx|x rest Hex IH]; simpl.
  - rewrite Hx. pose proof (filter_length_le p rest). lia.
  - destruct (p x); simpl; lia.
Qed.

Lemma length_filter_cons {A : Type} (p : A -> bool) x l :
  length (filter p (x :: l)) = (Nat.b2n (p x) + length (filter p l))%nat.
Proof. simpl. now destruct (p x). Qed.

(** ** Ranks and their bands *)

Lemma count_code_map (f : Z -> option nat) i ranks :
  pd.count_code i (map f ranks) =
  length (filter (fun r => match f r with Some j => Nat.eqb j i | None => false end) ranks).
Proof.
  unfold pd.count_code.
  induction ranks as [|r rest IH]; simpl; [reflexivity|].
  destruct (f r) as [j|]; [destruct (Nat.eqb j i)|]; simpl; now rewrite IH.
Qed.

Lemma count_code_band i lo hi ranks :
  (forall r, match pd.cut_code cluster_bins r with
             | Some j => Nat.eqb j i
             | None => false
             end = in_band lo hi r) ->
  pd.count_code i (cluster_codes ranks) = ranks_in lo hi ranks.
Proof.
  intros Hband. unfold cluster_codes, ranks_in.
  rewrite count_code_map. f_equal. apply filter_ext, Hband.
Qed.

Lemma category_tally_clusters ranks :
  pd.category_tally cluster_labels (cluster_codes ranks) = band_counts ranks.
Proof.
  unfold pd.category_tally, band_counts. cbn [cluster_labels length seq combine map fst snd].
  rewrite (count_code_band 0 0 (Fin 100)), (count_code_band 1 100 (Fin 500)),
    (count_code_band 2 500 (Fin 1000)), (count_code_band 3 1000 (Fin 5000)),
    (count_code_band 4 5000 Inf);
    try reflexivity;
    intros r; rewrite cut_code_cluster_bins; unfold in_band;
    case_ltb; reflexivity.
Qed.

(** The five bands partition the positive ranks. *)
Lemma band_partition r :
  (Nat.b2n (in_band 0 (Fin 100) r) + Nat.b2n (in_band 100 (Fin 500) r) +
   Nat.b2n (in_band 500 (Fin 1000) r) + Nat.b2n (in_band 1000 (Fin 5000) r) +
   Nat.b2n (in_band 5000 Inf r))%nat = Nat.b2n (0 <? r).
Proof. unfold in_band. case_ltb; reflexivity. Qed.

Lemma total_band_counts ranks :
  total_count (band_counts ranks) = length (filter (fun r => 0 <? r) ranks).
Proof.
  unfold total_count, band_counts, ranks_in. cbn [map snd fold_right].
  induction ranks as [|r rest IH]; [reflexivity|].
  rewrite !length_filter_cons, <- IH, <- band_partition. lia.
Qed.

Lemma nth_error_cluster_codes ranks i r :
  nth_error ranks i = Some r ->
  nth_error (cluster_codes ranks) i = Some (pd.cut_code cluster_bins r).
Proof. intros H. unfold cluster_codes. now apply map_nth_error. Qed.
(** ** Filtering *)

Lemma aligned_getitem df name s :
  aligned df -> getitem df name = Ok s -> series_len s = nrows df.
Proof.
  intros Hal Hget. apply getitem_Ok, lookup_In in Hget.
  unfold aligned in Hal. rewrite Forall_forall in Hal.
  exact (Hal _ Hget).
Qed.

Lemma getitem_boolean_index df mask name :
  getitem (pd.boolean_index df mask) name =
  match getitem df name with
  | Ok s => Ok (pd.select_series mask s)
  | Raise e => Raise e
  end.
Proof.
  unfold getitem, pd.boolean_index. simpl. rewrite lookup_map_snd.
  now destruct (lookup name (columns df)).
Qed.

Lemma select_all {A : Type} (mask : list bool) (l : list A) :
  Forall (fun b => b = true) mask -> (length l <= length mask)%nat ->
  pd.select mask l = l.
Proof.
  intros Hall. revert l.
  induction Hall as [|b mask Hb Hall IH]; intros [|x l]; simpl; try reflexivity.
  - lia.
  - intros Hlen. subst b. rewrite IH; [reflexivity | lia].
Qed.

Lemma select_none {A : Type} (mask : list bool) (l : list A) :
  Forall (fun b => b = false) mask -> pd.select mask l = [].
Proof.
  intros Hall. revert l.
  induction Hall as [|b mask Hb Hall IH]; intros [|x l]; simpl; try reflexivity.
  subst b. apply IH.
Qed.

Lemma select_series_all mask s :
  Forall (fun b => b = true) mask -> (series_len s <= length mask)%nat ->
  pd.select_series mask s = s.
Proof.
  intros Hall Hlen. destruct s; simpl in *; now rewrite select_all.
Qed.

Lemma select_series_none mask s :
  Forall (fun b => b = false) mask -> series_len (pd.select_series mask s) = 0%nat.
Proof.
  intros Hall. destruct s; simpl; now rewrite select_none.
Qed.

Lemma filter_id_all (mask : list bool) :
  Forall (fun b => b = true) mask -> filter (fun b => b) mask = mask.
Proof.
  induction 1 as [|b mask Hb Hall IH]; simpl; [reflexivity|].
  subst b. now rewrite IH.
Qed.

Lemma filter_id_none (mask : list bool) :
  Forall (fun b => b = false) mask -> filter (fun b => b) mask = [].
Proof.
  induction 1 as [|b mask Hb Hall IH]; simpl; [reflexivity|].
  now subst b.
Qed.

Lemma Forall_firstn {A : Type} (P : A -> Prop) n (l : list A) :
  Forall P l -> Forall P (firstn n l).
Proof.
  intros Hall. rewrite Forall_forall in *. intros x Hx. apply Hall.
  rewrite <- (firstn_skipn n l). apply in_or_app. now left.
Qed.

Lemma range_mask_length lo hi ranks : length (range_mask lo hi ranks) = length ranks.
Proof.
  unfold range_mask. induction ranks as [|r rest IH]; simpl; [reflexivity|].
  now rewrite IH.
Qed.

Lemma range_mask_all lo hi ranks :
  Forall (fun r => lo <= r <= hi) ranks ->
  Forall (fun b => b = true) (range_mask lo hi ranks).
Proof.
  unfold range_mask. induction 1 as [|r rest Hr Hall IH]; simpl; constructor.
  - apply andb_true_intro. split; [apply Z.leb_le | apply Z.leb_le]; lia.
  - exact IH.
Qed.

Lemma range_mask_none lo hi ranks :
  hi < lo -> Forall (fun b => b = false) (range_mask lo hi ranks).
Proof.
  intros Hinv. unfold range_mask.
  induction ranks as [|r rest IH]; simpl; constructor; [|exact IH].
  destruct (Z.leb_spec lo r), (Z.leb_spec r hi); try reflexivity. lia.
Qed.

(** The rank step of the filter on a frame with an integer rank column. *)
Lemma rank_filter_run df ranks lo hi :
  getitem df "Global Rank" = Ok (IntSeries ranks) ->
  main_filter df [] (lo, hi) = Ok (pd.boolean_index df (range_mask lo hi ranks)).
Proof.
  intros Hr. unfold main_filter. simpl. rewrite Hr. reflexivity.
Qed.

(** C6.  With no country selected and a rank range from 1 to at least the
    largest rank, filtering a table of positive ranks returns the table as
    it was: the same rows in the same order in every column. *)
Theorem filter_no_restriction (df : DataFrame) (ranks : list Z) (maxRank : Z) :
  aligned df ->
  getitem df "Global Rank" = Ok (IntSeries ranks) ->
  Forall (fun r => 1 <= r <= maxRank) ranks ->
  main_filter df [] (1, maxRank) = Ok df.
Proof.
  intros Hal Hr Hrange.
  rewrite (rank_filter_run _ _ _ _ Hr). f_equal.
  pose proof (aligned_getitem _ _ _ Hal Hr) as Hlen. simpl in Hlen.
  pose proof (range_mask_all _ _ _ Hrange) as Hall.
  pose proof (range_mask_length 1 maxRank ranks) as Hml.
  destruct df as [n cols]. unfold pd.boolean_index. simpl in *. f_equal.
  - rewrite firstn_all2 by lia. rewrite filter_id_all by exact Hall. lia.
  - unfold aligned in Hal. simpl in Hal. clear Hr.
    induction Hal as [|[name s] rest Hs Hal IH]; simpl; [reflexivity|].
    simpl in Hs. rewrite select_series_all; [|exact Hall|lia].
    now rewrite IH.
Qed.

Lemma column_names_boolean_index df mask :
  column_names (pd.boolean_index df mask) = column_names df.
Proof.
  unfold column_names, pd.boolean_index. simpl. rewrite map_map. reflexivity.
Qed.

Lemma boolean_index_none df mask :
  Forall (fun b => b = false) mask ->
  nrows (pd.boolean_index df mask) = 0%nat /\
  column_names (pd.boolean_index df mask) = column_names df /\
  Forall (fun c => series_len (snd c) = 0%nat) (columns (pd.boolean_index df mask)).
Proof.
  intros Hnone. split; [|split].
  - unfold pd.boolean_index. simpl.
    now rewrite filter_id_none by now apply Forall_firstn.
  - apply column_names_boolean_index.
  - unfold pd.boolean_index. simpl. apply Forall_map, Forall_forall.
    intros c _. simpl. now apply select_series_none.
Qed.

(** C7.  With an inverted rank range the filter of a well-formed table,
    whatever the selected countries, returns a table without rows (and with
    the same columns); it raises nothing. *)
Theorem filter_inverted_range (df : DataFrame) (selected_countries : list string)
  (lo hi : Z) :
  well_formed df ->
  hi < lo ->
  exists filtered_df,
    main_filter df selected_countries (lo, hi) = Ok filtered_df /\
    nrows filtered_df = 0%nat /\
    column_names filtered_df = column_names df /\
    Forall (fun c => series_len (snd c) = 0%nat) (columns filtered_df).
Proof.
  intros (_ & [ranks Hr] & _ & [countries Hc] & _) Hinv.
  destruct selected_countries as [|x rest].
  - eexists. split; [apply (rank_filter_run _ _ _ _ Hr)|].
    apply boolean_index_none, range_mask_none, Hinv.
  - set (mask := pd.isin (ObjSeries countries) (x :: rest)).
    exists (pd.boolean_index (pd.boolean_index df mask)
              (range_mask lo hi (pd.select mask ranks))).
    split.
    + unfold main_filter. rewrite Hc. simpl bind.
      rewrite getitem_boolean_index, Hr. reflexivity.
    + destruct (boolean_index_none (pd.boolean_index df mask)
                  (range_mask lo hi (pd.select mask ranks)))
        as (Hn & Hnames & Hcols).
      { apply range_mask_none, Hinv. }
      split; [exact Hn | split; [|exact Hcols]].
      now rewrite Hnames, column_names_boolean_index.
Qed.

(** ** Key metrics *)

(** How the key metrics run on a frame with the three columns they read. *)
Lemma main_key_metrics_run df ranks countries cities :
  getitem df "Global Rank" = Ok (IntSeries ranks) ->
  getitem df "Country" = Ok (ObjSeries countries) ->
  getitem df "City" = Ok (ObjSeries cities) ->
  main_key_metrics df =
  match ranks with
  | [] => (count_metrics df countries cities,
           Raise (ValueError "cannot convert float NaN to integer"))
  | _ => ((count_metrics df countries cities ++
           [Metric "Average Rank"
              (Z.quot (sum_ranks ranks) (Z.of_nat (length ranks)))])%list,
          Ok tt)
  end.
Proof.
  intros Hr Hc Hy. unfold main_key_metrics, ui_bind, eval, st_metric.
  simpl. rewrite Hc. simpl. rewrite Hy. simpl. rewrite Hr. simpl.
  destruct ranks as [|r rest]; reflexivity.
Qed.

Lemma sum_ranks_nonneg ranks :
  Forall (fun r => 0 <= r) ranks -> 0 <= sum_ranks ranks.
Proof.
  unfold sum_ranks. induction 1 as [|r rest Hr Hall IH]; simpl; lia.
Qed.

Lemma unique_nil_of_length (l : list string) :
  length l = 0%nat -> pd.unique String.eqb l = [].
Proof. destruct l; [reflexivity | discriminate]. Qed.

(** ** Rounded shares and their running sum *)

Lemma round_half_even_error n d :
  0 < d -> 2 * Z.abs (d * pd.round_half_even n d - n) <= d.
Proof.
  intros Hd. unfold pd.round_half_even.
  pose proof (Z.div_mod n d ltac:(lia)) as Hdm.
  pose proof (Z.mod_pos_bound n d Hd) as Hb.
  destruct (Z.ltb_spec (2 * (n mod d)) d);
    [|destruct (Z.ltb_spec d (2 * (n mod d))); [|destruct (Z.even (n / d))]];
    nia.
Qed.

Lemma round_half_even_nonneg n d :
  0 <= n -> 0 < d -> 0 <= pd.round_half_even n d.
Proof.
  intros Hn Hd. unfold pd.round_half_even.
  pose proof (Z.div_pos n d Hn Hd).
  destruct (2 * (n mod d) <? d); [lia|].
  destruct (d <? 2 * (n mod d)); [lia|].
  destruct (Z.even (n / d)); lia.
Qed.

Lemma share_of_total_finite total count :
  total <> 0%nat ->
  pd.share_of_total total count = Some (share_hundredths total count).
Proof. destruct total; [congruence | reflexivity]. Qed.

Lemma cumsum_from_finite acc zs :
  pd.cumsum_from (Some acc) (map Some zs) = map Some (running acc zs).
Proof.
  revert acc. induction zs as [|z rest IH]; intros acc; simpl; [reflexivity|].
  now rewrite IH.
Qed.

Lemma running_sorted acc zs :
  Forall (fun z => 0 <= z) zs ->
  StronglySorted Z.le (running acc zs) /\ Forall (fun c => acc <= c) (running acc zs).
Proof.
  intros Hall. revert acc.
  induction Hall as [|z rest Hz Hall IH]; intros acc; simpl.
  - split; constructor.
  - destruct (IH (acc + z)) as [Hs Hge]. split.
    + constructor; [exact Hs|]. exact Hge.
    + constructor; [lia|]. eapply Forall_impl; [|exact Hge].
      simpl. intros; lia.
Qed.

Lemma running_last acc zs :
  zs <> [] -> last (running acc zs) 0 = acc + fold_right Z.add 0 zs.
Proof.
  revert acc. induction zs as [|z rest IH]; intros acc Hne; [congruence|].
  destruct rest as [|z' rest'].
  - simpl. lia.
  - change (last (running (acc + z) (z' :: rest')) 0 =
            acc + (z + fold_right Z.add 0 (z' :: rest'))).
    rewrite IH by discriminate. lia.
Qed.

Lemma length_running acc zs : length (running acc zs) = length zs.
Proof.
  revert acc. induction zs as [|z rest IH]; intros acc; simpl; [reflexivity|].
  now rewrite IH.
Qed.

(** The rounded shares of counts add up to the exact percentage of their
    sum, up to half a hundredth per count. *)
Lemma shares_sum_error total (counts : list nat) :
  total <> 0%nat ->
  2 * Z.abs (Z.of_nat total * fold_right Z.add 0 (map (share_hundredths total) counts)
             - 10000 * Z.of_nat (fold_right Nat.add 0%nat counts))
  <= Z.of_nat (length counts) * Z.of_nat total.
Proof.
  intros Hnz. induction counts as [|c rest IH];
    [cbn [map fold_right length]; lia|].
  cbn [map fold_right length].
  pose proof (round_half_even_error (Z.of_nat c * 10000) (Z.of_nat total) ltac:(lia)) as Hc.
  fold (share_hundredths total c) in Hc.
  rewrite Z.mul_add_distr_l, Nat2Z.inj_add, Nat2Z.inj_succ.
  lia.
Qed.

Lemma concentration_frame_columns counts shares cumulative :
  length shares = length counts -> length cumulative = length counts ->
  map Cumulative_Share (concentration_frame counts shares cumulative) = cumulative /\
  map Share_of_Total (concentration_frame counts shares cumulative) = shares /\
  map (fun r => (Country r, University_Count r))
      (concentration_frame counts shares cumulative) = counts.
Proof.
  revert shares cumulative.
  induction counts as [|[k c] rest IH]; intros [|s shares] [|q cumulative];
    simpl; try discriminate; auto.
  intros [= Hs] [= Hq]. destruct (IH _ _ Hs Hq) as (-> & -> & ->). auto.
Qed.

(** ** Reading *)


(** ** The sort of a tally *)

Lemma take_seq {A : Type} (pre l : list A) :
  pd.take (pre ++ l) (seq (length pre) (length l)) = l.
Proof.
  revert pre. induction l as [|x rest IH]; intros pre; [reflexivity|].
  cbn [length seq]. unfold pd.take. cbn [flat_map].
  rewrite nth_error_app2, Nat.sub_diag by lia. cbn [nth_error app].
  f_equal. specialize (IH (pre ++ [x])%list).
  rewrite <- app_assoc, length_app, Nat.add_1_r in IH. exact IH.
Qed.

Lemma take_all {A : Type} (l : list A) : pd.take l (seq 0 (length l)) = l.
Proof. exact (take_seq [] l). Qed.

Lemma take_perm {A : Type} (l : list A) indexer indexer' :
  Permutation indexer indexer' ->
  Permutation (pd.take l indexer) (pd.take l indexer').
Proof. intros Hp. unfold pd.take. now apply Permutation_flat_map. Qed.

Lemma map_take {A B : Type} (f : A -> B) (l : list A) indexer :
  map f (pd.take l indexer) = pd.take (map f l) indexer.
Proof.
  unfold pd.take. induction indexer as [|i rest IH]; [reflexivity|].
  cbn [flat_map]. rewrite map_app, IH, nth_error_map.
  now destruct (nth_error l i).
Qed.

Lemma desc_of_counts {K : Type} (l : list (K * nat)) :
  StronglySorted ge (map snd l) -> StronglySorted desc l.
Proof.
  induction l as [|e rest IH]; simpl; [constructor|].
  intros Hs. inversion Hs as [|? ? Hrest Hall]; subst.
  constructor; [now apply IH|].
  rewrite Forall_map in Hall. eapply Forall_impl; [|exact Hall].
  unfold desc. intros b Hb. simpl in Hb. lia.
Qed.

Lemma counts_of_desc {K : Type} (l : list (K * nat)) :
  StronglySorted desc l -> StronglySorted ge (map snd l).
Proof.
  induction 1 as [|e rest Hs IH Hall]; simpl; constructor; [exact IH|].
  rewrite Forall_map. eapply Forall_impl; [|exact Hall].
  unfold desc. intros b Hb. simpl. lia.
Qed.

Lemma total_count_perm {K : Type} (l l' : list (K * nat)) :
  Permutation l l' -> total_count l = total_count l'.
Proof.
  unfold total_count.
  induction 1; simpl; lia.
Qed.

Section SortFacts.

Context {N : Nargsort} (Hsort : sorts_descending N) {K : Type}.
Implicit Types (l : list (K * nat)).

(** The sorted tally holds the entries of the tally, each once. *)
Lemma sort_values_desc_perm l : Permutation (pd.sort_values_desc l) l.
Proof.
  unfold pd.sort_values_desc.
  destruct (Hsort (map snd l)) as [Hperm _].
  rewrite length_map in Hperm.
  rewrite (take_perm l _ _ Hperm). now rewrite take_all.
Qed.

(** The sorted tally is in descending order of count. *)
Lemma sort_values_desc_sorted l : StronglySorted desc (pd.sort_values_desc l).
Proof.
  apply desc_of_counts. unfold pd.sort_values_desc. rewrite map_take.
  apply Hsort.
Qed.

Lemma length_sort_values_desc l : length (pd.sort_values_desc l) = length l.
Proof. apply Permutation_length, sort_values_desc_perm. Qed.

Lemma total_count_sort_values_desc l :
  total_count (pd.sort_values_desc l) = total_count l.
Proof. apply total_count_perm, sort_values_desc_perm. Qed.

End SortFacts.

(** *** Insertion meets the contract *)

Lemma insert_desc_perm {K : Type} (e : K * nat) l :
  Permutation (pd.insert_desc e l) (e :: l).
Proof.
  induction l as [|h rest IH]; simpl; [reflexivity|].
  destruct (snd e <? snd h)%nat; [|reflexivity].
  rewrite IH. apply perm_swap.
Qed.

Lemma insertion_sort_desc_perm {K : Type} (l : list (K * nat)) :
  Permutation (pd.insertion_sort_desc l) l.
Proof.
  induction l as [|e rest IH]; simpl; [reflexivity|].
  rewrite insert_desc_perm. now constructor.
Qed.

Lemma insert_desc_sorted {K : Type} (e : K * nat) l :
  StronglySorted desc l -> StronglySorted desc (pd.insert_desc e l).
Proof.
  induction 1 as [|h rest Hs IH Hall]; simpl.
  - repeat constructor.
  - destruct (Nat.ltb_spec (snd e) (snd h)) as [Hlt|Hge].
    + constructor; [exact IH|].
      apply Forall_forall. intros x Hx.
      apply (Permutation_in _ (insert_desc_perm e rest)) in Hx.
      destruct Hx as [<-|Hx]; [unfold desc; lia|].
      rewrite Forall_forall in Hall. now apply Hall.
    + constructor; [now constructor|].
      constructor; [exact Hge|].
      eapply Forall_impl; [|exact Hall].
      unfold desc. intros; lia.
Qed.

Lemma insertion_sort_desc_sorted {K : Type} (l : list (K * nat)) :
  StronglySorted desc (pd.insertion_sort_desc l).
Proof.
  induction l as [|e rest IH]; simpl; [constructor|].
  now apply insert_desc_sorted.
Qed.

Lemma map_fst_combine_seq {A : Type} start (l : list A) :
  map fst (combine (seq start (length l)) l) = seq start (length l).
Proof.
  revert start. induction l as [|x rest IH]; intros start; simpl; [reflexivity|].
  now rewrite IH.
Qed.

Lemma indexed_counts {A : Type} (pre l : list A) :
  Forall (fun p => nth_error (pre ++ l) (fst p) = Some (snd p))
         (combine (seq (length pre) (length l)) l).
Proof.
  revert pre. induction l as [|x rest IH]; intros pre; simpl; constructor.
  - simpl. now rewrite nth_error_app2, Nat.sub_diag by lia.
  - specialize (IH (pre ++ [x])%list).
    rewrite <- app_assoc, length_app, Nat.add_1_r in IH. exact IH.
Qed.

Lemma take_indexed {A : Type} (l : list A) (pairs : list (nat * A)) :
  Forall (fun p => nth_error l (fst p) = Some (snd p)) pairs ->
  pd.take l (map fst pairs) = map snd pairs.
Proof.
  unfold pd.take. induction 1 as [|p rest Hp Hall IH]; simpl; [reflexivity|].
  now rewrite Hp, IH.
Qed.

Lemma insertion_nargsort_sorts : sorts_descending pd.insertion_nargsort.
Proof.
  intros counts. unfold nargsort_desc, pd.insertion_nargsort.
  set (pairs := combine (seq 0 (length counts)) counts).
  pose proof (insertion_sort_desc_perm pairs) as Hperm.
  split.
  - rewrite (Permutation_map fst Hperm). unfold pairs.
    now rewrite map_fst_combine_seq.
  - rewrite take_indexed.
    + apply counts_of_desc, insertion_sort_desc_sorted.
    + apply (Permutation_Forall (Permutation_sym Hperm)).
      exact (indexed_counts [] counts).
Qed.
(** ** The counting aggregates

    What follows holds for every sorting routine that meets the contract. *)

Section Aggregates.

Context {N : Nargsort} (Hsort : sorts_descending N).

(** The first [n] entries of the counts of a text column, and the entries
    left out. *)
Lemma top_counts_text (l : list string) (n : Z) :
  exists rest,
    Permutation (pd.head n (pd.value_counts (ObjSeries l)) ++ rest)
                (pd.relabel LStr (pd.tally String.eqb l)) /\
    StronglySorted desc (pd.head n (pd.value_counts (ObjSeries l)) ++ rest) /\
    map fst (pd.relabel LStr (pd.tally String.eqb l)) =
      map LStr (pd.unique String.eqb l) /\
    (forall k c,
       In (LStr k, c) (pd.head n (pd.value_counts (ObjSeries l)) ++ rest) ->
       c = occurrences String.eqb k l) /\
    length (pd.head n (pd.value_counts (ObjSeries l))) =
      if 0 <=? n then Nat.min (Z.to_nat n) (length (pd.unique String.eqb l))
      else (length (pd.unique String.eqb l) - Z.to_nat (- n))%nat.
Proof.
  set (vc := pd.value_counts (ObjSeries l)).
  exists (skipn (length (pd.head n vc)) vc).
  assert (Hall : (pd.head n vc ++ skipn (length (pd.head n vc)) vc)%list = vc).
  { rewrite (head_prefix n vc) at 1. apply firstn_skipn. }
  rewrite Hall.
  assert (Hperm : Permutation vc (pd.relabel LStr (pd.tally String.eqb l)))
    by apply (sort_values_desc_perm Hsort).
  split; [exact Hperm|].
  split; [apply (sort_values_desc_sorted Hsort)|].
  split; [now rewrite keys_relabel, (keys_tally _ string_eqb_eq)|].
  split.
  - intros k c Hin. apply (Permutation_in _ Hperm) in Hin.
    apply In_relabel_LStr in Hin.
    now apply (tally_entry _ string_eqb_eq).
  - rewrite length_head, (Permutation_length Hperm). unfold pd.relabel.
    now rewrite length_map, (length_tally _ string_eqb_eq).
Qed.

(** [px.bar] draws whatever is not empty. *)
Lemma px_bar_nonempty (data : list (label * nat)) :
  data <> [] -> px_bar data = Ok data.
Proof. destruct data; [congruence | reflexivity]. Qed.

Lemma px_bar_empty : exists message, px_bar [] = Raise (ValueError message).
Proof. unfold px_bar. eauto. Qed.

(** C4, amended.  The top countries are the first entries of a descending
    arrangement of the per-country counts, in which every distinct country
    stands once with the number of its rows; the code applies no tie-break
    by key, the order among equal counts being the sorting routine's.
    There are [min n d] of them for [n >= 0] and [d - |n|] (none when that
    is negative) for [n < 0], where [d] is the number of distinct
    countries.  Whenever at least one entry is left, the chart is returned
    and shows exactly these entries. *)
Theorem top_countries_order (df : DataFrame) (l : list string) (n : Z) :
  getitem df "Country" = Ok (ObjSeries l) ->
  exists top rest,
    (top <> [] -> create_top_countries_chart df n = Ok top) /\
    Permutation (top ++ rest) (pd.relabel LStr (pd.tally String.eqb l)) /\
    StronglySorted desc (top ++ rest) /\
    map fst (pd.relabel LStr (pd.tally String.eqb l)) =
      map LStr (pd.unique String.eqb l) /\
    (forall k c, In (LStr k, c) (top ++ rest) -> c = occurrences String.eqb k l) /\
    length top =
      if 0 <=? n then Nat.min (Z.to_nat n) (length (pd.unique String.eqb l))
      else (length (pd.unique String.eqb l) - Z.to_nat (- n))%nat.
Proof.
  intros Hcol. unfold create_top_countries_chart. rewrite Hcol. simpl bind.
  destruct (top_counts_text l n) as [rest Hrest].
  exists (pd.head n (pd.value_counts (ObjSeries l))), rest.
  split; [| exact Hrest].
  intros Hne. now rewrite (px_bar_nonempty _ Hne).
Qed.

(** What [create_excellence_clusters] does to a frame with an integer rank
    column: it stores the codes in [Ranking_Cluster] and returns the band
    counts sorted by count. *)
Lemma create_excellence_clusters_run df ranks :
  getitem df "Global Rank" = Ok (IntSeries ranks) ->
  create_excellence_clusters df =
  Ok (setitem df "Ranking_Cluster" (CatSeries cluster_labels (cluster_codes ranks)),
      pd.sort_values_desc (band_counts ranks)).
Proof.
  intros Hr. unfold create_excellence_clusters. rewrite Hr. simpl bind.
  unfold getitem, setitem. simpl columns. rewrite lookup_assign_same. simpl bind.
  unfold pd.value_counts. simpl pd.value_tally.
  fold (cluster_codes ranks). fold cluster_labels.
  now rewrite category_tally_clusters.
Qed.

(** C5, amended.  The cluster counts hold one entry for each of the five
    labels, also for a cluster without universities, each with the number
    of ranks in its band, and the entries are in descending order of
    count, not in band order. *)
Theorem cluster_counts_sorted_by_count (df : DataFrame) (ranks : list Z) :
  getitem df "Global Rank" = Ok (IntSeries ranks) ->
  exists df' counts,
    create_excellence_clusters df = Ok (df', counts) /\
    analyze_excellence_clusters df = Ok (df', counts) /\
    Permutation counts (band_counts ranks) /\
    StronglySorted desc counts.
Proof.
  intros Hr. do 2 eexists.
  split; [apply (create_excellence_clusters_run _ _ Hr)|].
  split; [apply (create_excellence_clusters_run _ _ Hr)|].
  split; [apply (sort_values_desc_perm Hsort) | apply (sort_values_desc_sorted Hsort)].
Qed.

(** C10.  A record whose rank is zero or negative gets the missing value
    instead of a cluster, the cluster counts leave it out, and so the counts
    add up to the number of positive ranks, which is less than the number
    of records as soon as one rank is not positive. *)
Theorem nonpositive_ranks_uncounted (df : DataFrame) (ranks : list Z) :
  getitem df "Global Rank" = Ok (IntSeries ranks) ->
  length ranks = nrows df ->
  exists df' counts,
    create_excellence_clusters df = Ok (df', counts) /\
    getitem df' "Ranking_Cluster" =
      Ok (CatSeries cluster_labels (cluster_codes ranks)) /\
    (forall i r, nth_error ranks i = Some r -> r <= 0 ->
       nth_error (cluster_codes ranks) i = Some None /\
       assign_excellence_cluster r = None) /\
    total_count counts = length (filter (fun r => 0 <? r) ranks) /\
    (Exists (fun r => r <= 0) ranks -> (total_count counts < nrows df)%nat).
Proof.
  intros Hr Hlen. do 2 eexists.
  split; [apply (create_excellence_clusters_run _ _ Hr)|].
  split.
  { unfold getitem, setitem. simpl. now rewrite lookup_assign_same. }
  assert (Hnone : forall r, r <= 0 -> pd.cut_code cluster_bins r = None).
  { intros r Hle. rewrite cut_code_cluster_bins.
    destruct (Z.leb_spec r 0); [reflexivity | lia]. }
  split.
  { intros i r Hi Hle. split.
    - rewrite (nth_error_cluster_codes _ _ _ Hi). now rewrite Hnone.
    - unfold assign_excellence_cluster. now rewrite Hnone. }
  rewrite (total_count_sort_values_desc Hsort), total_band_counts.
  split; [reflexivity|].
  intros Hex. rewrite <- Hlen. apply filter_length_lt.
  eapply Exists_impl; [|exact Hex].
  intros r Hle. simpl in Hle. apply Z.ltb_ge. exact Hle.
Qed.

(** C3, amended.  [create_excellence_clusters] and
    [analyze_excellence_clusters] write the column [Ranking_Cluster] of
    their table, and [analyze_ranking_distribution] writes [Rank_Bracket]:
    the column is overwritten when present and appended otherwise.  The
    number of rows and every other column stay as they were, the written
    column stays in the table after the call, and a second call on the
    resulting table returns the same table and the same counts. *)
Theorem excellence_clusters_frame (df df1 : DataFrame) (counts : list (label * nat)) :
  create_excellence_clusters df = Ok (df1, counts) ->
  analyze_excellence_clusters df = Ok (df1, counts) /\
  nrows df1 = nrows df /\
  (forall name, name <> "Ranking_Cluster" -> getitem df1 name = getitem df name) /\
  (exists codes, getitem df1 "Ranking_Cluster" = Ok (CatSeries cluster_labels codes)) /\
  column_names df1 =
    (if existsb (String.eqb "Ranking_Cluster") (column_names df) then column_names df
     else (column_names df ++ ["Ranking_Cluster"])%list) /\
  create_excellence_clusters df1 = Ok (df1, counts) /\
  (forall qcut df2 brackets,
     analyze_ranking_distribution qcut df = Ok (df2, brackets) ->
     nrows df2 = nrows df /\
     (forall name, name <> "Rank_Bracket" -> getitem df2 name = getitem df name) /\
     (exists s, getitem df2 "Rank_Bracket" = Ok s) /\
     column_names df2 =
       (if existsb (String.eqb "Rank_Bracket") (column_names df) then column_names df
        else (column_names df ++ ["Rank_Bracket"])%list)).
Proof.
  intros Hrun. split; [exact Hrun|].
  assert (exists ranks, getitem df "Global Rank" = Ok (IntSeries ranks)) as [ranks Hr].
  { unfold create_excellence_clusters in Hrun.
    destruct (getitem df "Global Rank") as [[v|v|cs v]|e]; simpl in Hrun;
      try discriminate.
    now exists v. }
  rewrite (create_excellence_clusters_run _ _ Hr) in Hrun.
  injection Hrun as <- <-.
  destruct (setitem_frame df "Ranking_Cluster"
              (CatSeries cluster_labels (cluster_codes ranks)))
    as (Hn & Hsame & Hother & Hnames).
  split; [exact Hn|]. split; [exact Hother|].
  split; [eexists; exact Hsame|]. split; [exact Hnames|].
  split.
  { rewrite (create_excellence_clusters_run _ ranks).
    - unfold setitem. simpl. now rewrite assign_assign.
    - rewrite Hother; [exact Hr | discriminate]. }
  intros qcut df2 brackets Hq.
  unfold analyze_ranking_distribution in Hq. rewrite Hr in Hq. simpl in Hq.
  destruct (qcut (IntSeries ranks) 10%nat rank_bracket_labels) as [rb|e];
    simpl in Hq; [|discriminate].
  destruct (setitem_frame df "Rank_Bracket" rb) as (Hn' & Hsame' & Hother' & Hnames').
  rewrite Hsame' in Hq. simpl in Hq. injection Hq as <- _.
  split; [exact Hn'|]. split; [exact Hother'|].
  split; [eexists; exact Hsame' | exact Hnames'].
Qed.

Lemma value_counts_text_total (l : list string) :
  total_count (pd.value_counts (ObjSeries l)) = length l.
Proof.
  unfold pd.value_counts. rewrite (total_count_sort_values_desc Hsort). simpl.
  unfold total_count, pd.relabel. rewrite map_map. simpl.
  apply (total_count_tally String.eqb).
Qed.

Lemma value_counts_text_length (l : list string) :
  length (pd.value_counts (ObjSeries l)) = length (pd.unique String.eqb l).
Proof.
  unfold pd.value_counts. rewrite (length_sort_values_desc Hsort). simpl.
  unfold pd.relabel. now rewrite length_map, (length_tally _ string_eqb_eq).
Qed.

(** A column with a cell has a most frequent value: asked for at least one
    entry, the head of its counts is not empty. *)
Lemma top_counts_nonempty (l : list string) (n : Z) :
  l <> [] -> 0 < n -> pd.head n (pd.value_counts (ObjSeries l)) <> [].
Proof.
  intros Hl Hn Hnil.
  apply (f_equal (@length _)) in Hnil. rewrite length_head in Hnil.
  destruct (Z.leb_spec 0 n) as [_|]; [|lia].
  pose proof (value_counts_text_total l) as Ht.
  destruct (pd.value_counts (ObjSeries l)) as [|e vc].
  - destruct l; [congruence | discriminate].
  - simpl in Hnil. lia.
Qed.

(** The bar chart of a column with a cell, asked for at least one entry. *)
Lemma top_chart_text (l : list string) (n : Z) :
  l <> [] -> 0 < n ->
  px_bar (pd.head n (pd.value_counts (ObjSeries l))) =
  Ok (pd.head n (pd.value_counts (ObjSeries l))).
Proof. intros Hl Hn. apply px_bar_nonempty. now apply top_counts_nonempty. Qed.

(** C8, amended.  On a well-formed table the world map, the histogram
    data, the excellence clusters and the concentration index return a
    result, also when the table is empty, and the key metrics show the
    number of rows, of distinct countries and of distinct cities, which
    are all zero on the empty table.  On a table with rows the top
    countries and the top cities charts, asked for at least one entry,
    return a result with at least one entry, and the key metrics end with
    the average rank: for ranks that are not negative and whose sum plus
    their number stays below 2^53, it is the mean of the ranks truncated
    toward zero, that is, its floor. *)
Theorem aggregations_defined (df : DataFrame) (ranks : list Z)
  (countries cities : list string) :
  aligned df ->
  getitem df "Global Rank" = Ok (IntSeries ranks) ->
  getitem df "Country" = Ok (ObjSeries countries) ->
  getitem df "City" = Ok (ObjSeries cities) ->
  (exists counts, create_world_map df = Ok counts) /\
  (exists s, create_ranking_distribution df = Ok s) /\
  (exists df' counts, create_excellence_clusters df = Ok (df', counts)) /\
  (exists rows, calculate_concentration_index df = Ok rows) /\
  firstn 3 (fst (main_key_metrics df)) = count_metrics df countries cities /\
  (nrows df = 0%nat ->
   count_metrics df countries cities =
   [Metric "Total Universities" 0; Metric "Countries" 0; Metric "Cities" 0]) /\
  (nrows df <> 0%nat ->
   (forall n, 0 < n ->
      exists top, create_top_countries_chart df n = Ok top /\ top <> []) /\
   (forall n, 0 < n ->
      exists top, create_top_cities_chart df n = Ok top /\ top <> []) /\
   (Forall (fun r => 0 <= r) ranks ->
    sum_ranks ranks + Z.of_nat (nrows df) < 2 ^ 53 ->
    main_key_metrics df =
      ((count_metrics df countries cities ++
        [Metric "Average Rank" (Z.quot (sum_ranks ranks) (Z.of_nat (nrows df)))])%list,
       Ok tt) /\
    Z.quot (sum_ranks ranks) (Z.of_nat (nrows df)) * Z.of_nat (nrows df)
      <= sum_ranks ranks
      < (Z.quot (sum_ranks ranks) (Z.of_nat (nrows df)) + 1) * Z.of_nat (nrows df))).
Proof.
  intros Hal Hr Hc Hy.
  pose proof (aligned_getitem _ _ _ Hal Hr) as Hlr.
  pose proof (aligned_getitem _ _ _ Hal Hc) as Hlc.
  pose proof (aligned_getitem _ _ _ Hal Hy) as Hly.
  simpl in Hlr, Hlc, Hly.
  split. { unfold create_world_map. rewrite Hc. simpl. eauto. }
  split. { unfold create_ranking_distribution. eauto. }
  split. { rewrite (create_excellence_clusters_run _ _ Hr). eauto. }
  split. { unfold calculate_concentration_index. rewrite Hc. simpl. eauto. }
  rewrite (main_key_metrics_run _ _ _ _ Hr Hc Hy).
  split. { destruct ranks; reflexivity. }
  split.
  { intros Hz. unfold count_metrics.
    rewrite !unique_nil_of_length by congruence. now rewrite Hz. }
  intros Hnz.
  assert (Hcne : countries <> []) by (intros ->; simpl in Hlc; congruence).
  assert (Hyne : cities <> []) by (intros ->; simpl in Hly; congruence).
  split.
  { intros n Hn. unfold create_top_countries_chart. rewrite Hc. simpl bind.
    rewrite (top_chart_text _ _ Hcne Hn). simpl bind.
    eexists. split; [reflexivity | now apply top_counts_nonempty]. }
  split.
  { intros n Hn. unfold create_top_cities_chart. rewrite Hy. simpl bind.
    rewrite (top_chart_text _ _ Hyne Hn). simpl bind.
    eexists. split; [reflexivity | now apply top_counts_nonempty]. }
  intros Hpos _. rewrite <- Hlr. split.
  { destruct ranks as [|r rest]; [simpl in Hlr; congruence | reflexivity]. }
  pose proof (sum_ranks_nonneg _ Hpos) as Hsum.
  assert (0 < Z.of_nat (length ranks)) as Hn by lia.
  rewrite Z.quot_div_nonneg by lia.
  pose proof (Z.div_mod (sum_ranks ranks) (Z.of_nat (length ranks))).
  pose proof (Z.mod_pos_bound (sum_ranks ranks) (Z.of_nat (length ranks)) Hn).
  nia.
Qed.

(** C1, amended.  On an aligned table with a text column [Country] the
    concentration index is defined; it has one row for each of the (at
    most ten) most frequent countries; its cumulative shares are finite
    and non-decreasing; it is empty when the table is empty; and when the
    table has rows and at most ten distinct countries, [k] say, the last
    cumulative share differs from 100.00 by at most [k] times 0.005. *)
Theorem concentration_index_cumulative (df : DataFrame) (countries : list string) :
  aligned df ->
  getitem df "Country" = Ok (ObjSeries countries) ->
  exists rows cumulative,
    calculate_concentration_index df = Ok rows /\
    length rows = Nat.min 10 (length (pd.unique String.eqb countries)) /\
    map Cumulative_Share rows = map Some cumulative /\
    StronglySorted Z.le cumulative /\
    (nrows df = 0%nat -> rows = []) /\
    (nrows df <> 0%nat ->
     (length (pd.unique String.eqb countries) <= 10)%nat ->
     rows <> [] /\
     2 * Z.abs (last cumulative 0 - 10000)
       <= Z.of_nat (length (pd.unique String.eqb countries))).
Proof.
  intros Hal Hc.
  pose proof (aligned_getitem _ _ _ Hal Hc) as Hlen. simpl in Hlen.
  unfold calculate_concentration_index. rewrite Hc. simpl bind.
  set (vc := pd.value_counts (ObjSeries countries)).
  set (share := map (fun kc => pd.share_of_total (nrows df) (snd kc)) vc).
  assert (Hvl : length vc = length (pd.unique String.eqb countries))
    by apply value_counts_text_length.
  destruct (Nat.eq_dec (nrows df) 0) as [Hz|Hnz].
  - (* no rows: no country, no entry *)
    assert (countries = []) as -> by (destruct countries; [reflexivity | simpl in Hlen; lia]).
    assert (Hvc : vc = []) by (apply length_zero_iff_nil; now rewrite Hvl).
    clearbody vc. subst vc.
    exists [], [].
    split; [reflexivity|]. split; [reflexivity|]. split; [reflexivity|].
    split; [constructor|]. split; [reflexivity|].
    intros Hnz. contradiction.
  - set (zs := map (fun kc => share_hundredths (nrows df) (snd kc)) vc).
    assert (Hshare : share = map Some zs).
    { unfold share, zs. rewrite map_map. apply map_ext.
      intros kc. now apply share_of_total_finite. }
    assert (Hcum : pd.cumsum share = map Some (running 0 zs)).
    { unfold pd.cumsum. rewrite Hshare. apply cumsum_from_finite. }
    assert (Hzl : length zs = length vc) by (unfold zs; apply length_map).
    destruct (concentration_frame_columns vc share (pd.cumsum share))
      as (Hcol & _ & _).
    { unfold share. apply length_map. }
    { rewrite Hcum, length_map, length_running. exact Hzl. }
    assert (Hnonneg : Forall (fun z => 0 <= z) zs).
    { unfold zs. apply Forall_map, Forall_forall. intros kc _.
      apply round_half_even_nonneg; lia. }
    exists (pd.head 10 (concentration_frame vc share (pd.cumsum share))),
           (pd.head 10 (running 0 zs)).
    split; [reflexivity|].
    assert (Hrows : map Cumulative_Share
                      (pd.head 10 (concentration_frame vc share (pd.cumsum share)))
                    = map Some (pd.head 10 (running 0 zs))).
    { now rewrite map_head, Hcol, Hcum, <- map_head. }
    assert (Hrl : length (pd.head 10 (concentration_frame vc share (pd.cumsum share)))
                  = Nat.min 10 (length (pd.unique String.eqb countries))).
    { rewrite <- (length_map Cumulative_Share), Hrows, length_map, length_head.
      simpl. now rewrite length_running, Hzl, Hvl. }
    split; [exact Hrl|]. split; [exact Hrows|].
    split.
    { rewrite head_prefix. apply StronglySorted_firstn.
      now apply running_sorted. }
    split; [congruence|].
    intros _ Hten.
    assert (Hne : zs <> []).
    { intros Hnil. rewrite Hnil in Hzl. simpl in Hzl.
      rewrite Hvl in Hzl.
      pose proof (value_counts_text_total countries) as Ht. fold vc in Ht.
      destruct vc; [|discriminate]. simpl in Ht. unfold total_count in Ht.
      simpl in Ht. lia. }
    split.
    { intros Hnil. rewrite Hnil in Hrl. simpl in Hrl.
      rewrite <- Hvl, <- Hzl in Hrl. destruct zs; [congruence | simpl in Hrl; lia]. }
    assert (pd.head 10 (running 0 zs) = running 0 zs) as ->.
    { apply head_all; [lia|].
      rewrite length_running, Hzl, Hvl. exact Hten. }
    rewrite running_last by exact Hne. rewrite Z.add_0_l.
    pose proof (shares_sum_error (nrows df) (map snd vc) Hnz) as Herr.
    rewrite map_map in Herr. fold zs in Herr.
    pose proof (value_counts_text_total countries) as Ht. fold vc in Ht.
    unfold total_count in Ht. rewrite Ht, Hlen, length_map, Hvl in Herr.
    nia.
Qed.


End Aggregates.
(** * Further properties *)

(** ** Row selection *)

Lemma select_nil {A : Type} (mask : list bool) : pd.select mask (@nil A) = [].
Proof. now destruct mask as [|[|] mask]. Qed.

(** Selecting twice is selecting once by the conjunction of the masks. *)
Lemma select_select {A : Type} (m1 m2 : list bool) (l : list A) :
  pd.select (pd.select m1 m2) (pd.select m1 l) = pd.select (pd.band m1 m2) l.
Proof.
  revert m2 l. induction m1 as [|b m1 IH]; intros m2 l; [reflexivity|].
  destruct m2 as [|c m2], l as [|x l]; try reflexivity.
  - now rewrite !select_nil.
  - destruct b, c; simpl; now rewrite IH.
Qed.

Lemma select_series_select m1 m2 s :
  pd.select_series (pd.select m1 m2) (pd.select_series m1 s) =
  pd.select_series (pd.band m1 m2) s.
Proof. destruct s; simpl; now rewrite select_select. Qed.

Lemma select_map {A B : Type} (f : A -> B) mask (l : list A) :
  pd.select mask (map f l) = map f (pd.select mask l).
Proof.
  revert l. induction mask as [|b mask IH]; intros [|x l]; simpl; try reflexivity.
  destruct b; simpl; now rewrite IH.
Qed.

Lemma select_range_mask mask lo hi ranks :
  pd.select mask (range_mask lo hi ranks) = range_mask lo hi (pd.select mask ranks).
Proof.
  unfold range_mask.
  revert ranks. induction mask as [|c mask IH]; intros [|r ranks]; simpl;
    try reflexivity.
  destruct c; simpl; now rewrite IH.
Qed.

Lemma length_select {A : Type} mask (l : list A) :
  (length mask <= length l)%nat ->
  length (pd.select mask l) = length (filter (fun b => b) mask).
Proof.
  revert l. induction mask as [|b mask IH]; intros [|x l]; simpl; try reflexivity.
  - lia.
  - intros Hlen. destruct b; simpl; rewrite IH; lia.
Qed.

Lemma count_select_band (m1 m2 : list bool) :
  length (filter (fun b => b) (pd.select m1 m2)) =
  length (filter (fun b => b) (pd.band m1 m2)).
Proof.
  revert m2. induction m1 as [|b m1 IH]; intros [|c m2]; try reflexivity.
  destruct b, c; simpl; now rewrite IH.
Qed.

Lemma length_band (a b : list bool) :
  length a = length b -> length (pd.band a b) = length a.
Proof.
  revert b. induction a as [|x a IH]; intros [|y b]; simpl; try discriminate;
    [reflexivity|].
  intros [= H]. now rewrite IH.
Qed.

(** Selecting with a mask as long as the table keeps a frame aligned. *)
Lemma boolean_index_aligned df mask :
  aligned df -> length mask = nrows df -> aligned (pd.boolean_index df mask).
Proof.
  intros Hal Hlen. unfold aligned, pd.boolean_index in *. simpl.
  rewrite firstn_all2 by lia.
  apply Forall_map. eapply Forall_impl; [|exact Hal].
  intros [name s] Hs. simpl in *.
  destruct s; simpl in *; rewrite length_select; lia.
Qed.

(** Selecting every row leaves an aligned frame as it is. *)
Lemma boolean_index_all df mask :
  aligned df -> Forall (fun b => b = true) mask -> length mask = nrows df ->
  pd.boolean_index df mask = df.
Proof.
  intros Hal Hall Hlen. destruct df as [n cols].
  unfold pd.boolean_index, aligned in *. simpl in *. f_equal.
  - rewrite firstn_all2 by lia. rewrite filter_id_all by exact Hall. lia.
  - induction Hal as [|[name s] rest Hs Hal IH]; simpl; [reflexivity|].
    simpl in Hs. rewrite select_series_all; [|exact Hall|lia].
    now rewrite IH.
Qed.

Lemma boolean_index_twice df m1 m2 :
  aligned df -> length m1 = nrows df -> length m2 = nrows df ->
  pd.boolean_index (pd.boolean_index df m1) (pd.select m1 m2) =
  pd.boolean_index df (pd.band m1 m2).
Proof.
  intros Hal H1 H2. unfold pd.boolean_index. simpl. f_equal.
  - rewrite (firstn_all2 (n := nrows df) m1) by lia.
    rewrite (firstn_all2 (n := nrows df) (pd.band m1 m2))
      by (rewrite length_band; lia).
    rewrite (firstn_all2 (pd.select m1 m2))
      by (rewrite length_select by lia; lia).
    apply count_select_band.
  - rewrite map_map. apply map_ext. intros [name s]. simpl.
    now rewrite select_series_select.
Qed.

(** ** The filter of the dashboard *)

Lemma passes_mask selected_countries lo hi ranks countries :
  length ranks = length countries ->
  match selected_countries with
  | [] => range_mask lo hi ranks
  | _ => pd.band (pd.isin (ObjSeries countries) selected_countries)
                 (range_mask lo hi ranks)
  end = map (passes selected_countries lo hi) (combine ranks countries).
Proof.
  unfold range_mask, passes. revert countries.
  induction ranks as [|r ranks IH]; intros [|c countries] Hlen;
    try discriminate.
  - now destruct selected_countries.
  - injection Hlen as Hlen. specialize (IH countries Hlen).
    destruct selected_countries as [|x rest]; simpl in *; now rewrite IH.
Qed.

Lemma select_passing {A B : Type} (p : A * B -> bool) (a : list A) (b : list B) :
  length a = length b ->
  pd.select (map p (combine a b)) a = map fst (filter p (combine a b)) /\
  pd.select (map p (combine a b)) b = map snd (filter p (combine a b)).
Proof.
  revert b. induction a as [|x a IH]; intros [|y b] Hlen; try discriminate.
  - split; reflexivity.
  - injection Hlen as Hlen. destruct (IH b Hlen) as [Ha Hb]. simpl.
    destruct (p (x, y)); simpl; now rewrite Ha, Hb.
Qed.

(** The two steps of the filter amount to one selection of rows, by the
    conjunction of the country criterion and the rank criterion. *)
Lemma main_filter_selects df ranks countries selected_countries lo hi :
  aligned df ->
  getitem df "Global Rank" = Ok (IntSeries ranks) ->
  getitem df "Country" = Ok (ObjSeries countries) ->
  main_filter df selected_countries (lo, hi) =
  Ok (pd.boolean_index df
        (map (passes selected_countries lo hi) (combine ranks countries))).
Proof.
  intros Hal Hr Hc.
  pose proof (aligned_getitem _ _ _ Hal Hr) as Hlr.
  pose proof (aligned_getitem _ _ _ Hal Hc) as Hlc. simpl in Hlr, Hlc.
  rewrite <- (passes_mask selected_countries lo hi ranks countries) by lia.
  destruct selected_countries as [|x rest].
  - apply (rank_filter_run _ _ _ _ Hr).
  - set (m1 := pd.isin (ObjSeries countries) (x :: rest)).
    assert (Hm1 : length m1 = nrows df) by (unfold m1; simpl; now rewrite length_map).
    assert (Hstep : main_filter df (x :: rest) (lo, hi) =
                    main_filter (pd.boolean_index df m1) [] (lo, hi)).
    { unfold main_filter. rewrite Hc. reflexivity. }
    rewrite Hstep, (rank_filter_run _ (pd.select m1 ranks)).
    2: { rewrite getitem_boolean_index, Hr. reflexivity. }
    rewrite <- select_range_mask.
    rewrite boolean_index_twice; [reflexivity | exact Hal | exact Hm1 |].
    rewrite range_mask_length. exact Hlr.
Qed.

(** The table the filter returns: its rank and country columns, its row
    count, its alignment and its column names. *)
Lemma main_filter_frame (df : DataFrame) (ranks : list Z) (countries : list string)
  (selected_countries : list string) (lo hi : Z) :
  aligned df ->
  getitem df "Global Rank" = Ok (IntSeries ranks) ->
  getitem df "Country" = Ok (ObjSeries countries) ->
  exists filtered_df,
    main_filter df selected_countries (lo, hi) = Ok filtered_df /\
    getitem filtered_df "Global Rank" =
      Ok (IntSeries (map fst (filter (passes selected_countries lo hi)
                                     (combine ranks countries)))) /\
    getitem filtered_df "Country" =
      Ok (ObjSeries (map snd (filter (passes selected_countries lo hi)
                                     (combine ranks countries)))) /\
    nrows filtered_df =
      length (filter (passes selected_countries lo hi) (combine ranks countries)) /\
    aligned filtered_df /\
    column_names filtered_df = column_names df.
Proof.
  intros Hal Hr Hc.
  pose proof (aligned_getitem _ _ _ Hal Hr) as Hlr.
  pose proof (aligned_getitem _ _ _ Hal Hc) as Hlc. simpl in Hlr, Hlc.
  assert (Hlen : length ranks = length countries) by lia.
  set (p := passes selected_countries lo hi).
  destruct (select_passing p ranks countries Hlen) as [Hsr Hsc].
  assert (Hml : length (map p (combine ranks countries)) = nrows df).
  { rewrite length_map, length_combine. lia. }
  eexists. split; [apply (main_filter_selects _ _ _ _ _ _ Hal Hr Hc)|].
  fold p. rewrite !getitem_boolean_index, Hr, Hc. simpl pd.select_series.
  rewrite Hsr, Hsc.
  split; [reflexivity|]. split; [reflexivity|].
  split.
  { unfold pd.boolean_index. simpl. rewrite firstn_all2 by lia.
    rewrite <- (length_map fst), <- Hsr. symmetry. apply length_select.
    rewrite length_map, length_combine. lia. }
  split; [now apply boolean_index_aligned | apply column_names_boolean_index].
Qed.

(** X1.  The filter keeps the rows whose country is selected (every row, when no
    country is selected) and whose rank lies in the range, in their order;
    the table it returns is aligned, has the same columns, and as many rows
    as pass. *)
Theorem main_filter_rows (df : DataFrame) (ranks : list Z) (countries : list string)
  (selected_countries : list string) (lo hi : Z) :
  aligned df ->
  getitem df "Global Rank" = Ok (IntSeries ranks) ->
  getitem df "Country" = Ok (ObjSeries countries) ->
  exists filtered_df,
    main_filter df selected_countries (lo, hi) = Ok filtered_df /\
    getitem filtered_df "Global Rank" =
      Ok (IntSeries (map fst (filter (passes selected_countries lo hi)
                                     (combine ranks countries)))) /\
    getitem filtered_df "Country" =
      Ok (ObjSeries (map snd (filter (passes selected_countries lo hi)
                                     (combine ranks countries)))) /\
    nrows filtered_df =
      length (filter (passes selected_countries lo hi) (combine ranks countries)) /\
    aligned filtered_df /\
    column_names filtered_df = column_names df.
Proof. apply main_filter_frame. Qed.

Lemma combine_fst_snd {A B : Type} (l : list (A * B)) :
  combine (map fst l) (map snd l) = l.
Proof.
  induction l as [|[a b] l IH]; simpl; [reflexivity | now rewrite IH].
Qed.

Lemma passes_weaker selected selected' lo hi lo' hi' row :
  selected' = [] \/ (selected <> [] /\ incl selected selected') ->
  lo' <= lo -> hi <= hi' ->
  passes selected lo hi row = true -> passes selected' lo' hi' row = true.
Proof.
  intros Hsel Hlo Hhi. unfold passes.
  rewrite !andb_true_iff, !Z.leb_le. intros (Hc & H1 & H2).
  split; [|lia].
  destruct Hsel as [->|[Hne Hincl]]; [reflexivity|].
  destruct selected as [|x rest]; [congruence|].
  destruct selected' as [|y rest'].
  - reflexivity.
  - apply existsb_exists in Hc. destruct Hc as (c & Hin & Heq).
    apply existsb_exists. exists c. split; [now apply Hincl | exact Heq].
Qed.

(** X2.  Filtering a second time changes nothing when the second criteria are
    not stricter than the first: the same or a wider rank range, and the
    same or more countries, or none.  In particular the filter is
    idempotent.  The filtered table is again well formed. *)
Theorem main_filter_again (df filtered_df : DataFrame)
  (selected selected' : list string) (lo hi lo' hi' : Z) :
  well_formed df ->
  main_filter df selected (lo, hi) = Ok filtered_df ->
  selected' = [] \/ (selected <> [] /\ incl selected selected') ->
  lo' <= lo -> hi <= hi' ->
  well_formed filtered_df /\
  main_filter filtered_df selected' (lo', hi') = Ok filtered_df.
Proof.
  intros (Hal & [ranks Hr] & [names Hu] & [countries Hc] & [cities Hy])
         Hrun Hsel Hlo Hhi.
  destruct (main_filter_frame df ranks countries selected lo hi Hal Hr Hc)
    as (fdf & Hrun' & Hfr & Hfc & Hn & Hfal & _).
  rewrite Hrun in Hrun'. injection Hrun' as <-.
  assert (Hwf : well_formed filtered_df).
  { split; [exact Hfal|].
    rewrite (main_filter_selects _ _ _ _ _ _ Hal Hr Hc) in Hrun.
    injection Hrun as <-.
    rewrite !getitem_boolean_index, Hr, Hu, Hc, Hy. simpl.
    repeat split; eexists; reflexivity. }
  split; [exact Hwf|].
  rewrite (main_filter_selects _ _ _ _ _ _ Hfal Hfr Hfc).
  f_equal. rewrite combine_fst_snd.
  apply boolean_index_all; [exact Hfal | | now rewrite length_map].
  apply Forall_map, Forall_forall. intros row Hin.
  apply filter_In in Hin. destruct Hin as [_ Hp].
  now apply (passes_weaker selected selected' lo hi lo' hi').
Qed.

Lemma getitem_Raise df name :
  lookup name (columns df) = None -> getitem df name = Raise (KeyError name).
Proof. intros H. unfold getitem. now rewrite H. Qed.


(** ** The sidebar *)

Section UniqueFacts.

Context {A : Type} (eqb : A -> A -> bool).
Hypothesis eqb_eq : forall a b, eqb a b = true <-> a = b.

(** The distinct values of a column are its values. *)
Lemma In_unique x l : In x (pd.unique eqb l) <-> In x l.
Proof.
  induction l as [|y l IH] using rev_ind; [reflexivity|].
  rewrite unique_snoc, in_app_iff. unfold pd.add_unique.
  destruct (existsb (eqb y) (pd.unique eqb l)) eqn:E.
  - rewrite IH. split; [tauto|]. intros [H|[<-|[]]]; [exact H|].
    apply existsb_exists in E. destruct E as (z & Hz & Heq).
    apply eqb_eq in Heq. subst z. now apply IH.
  - rewrite in_app_iff, IH. reflexivity.
Qed.

End UniqueFacts.

Section SortedFacts.

Context {A : Type} (leb : A -> A -> bool).
Hypothesis leb_total : forall a b, leb a b = true \/ leb b a = true.

Lemma insert_sorted_perm x l : Permutation (insert_sorted leb x l) (x :: l).
Proof.
  induction l as [|y l IH]; simpl; [reflexivity|].
  destruct (leb x y); [reflexivity|].
  rewrite IH. apply perm_swap.
Qed.

Lemma sorted_perm l : Permutation (sorted leb l) l.
Proof.
  induction l as [|x l IH]; simpl; [reflexivity|].
  rewrite insert_sorted_perm. now constructor.
Qed.

Lemma insert_sorted_Sorted x l :
  Sorted (fun a b => leb a b = true) l ->
  Sorted (fun a b => leb a b = true) (insert_sorted leb x l).
Proof.
  induction 1 as [|y l Hs IH Hhd]; simpl.
  - repeat constructor.
  - destruct (leb x y) eqn:E.
    + repeat constructor; assumption.
    + constructor; [exact IH|].
      assert (leb y x = true) as Hyx by (destruct (leb_total x y); congruence).
      destruct l as [|z l]; simpl.
      * now constructor.
      * inversion Hhd; subst. destruct (leb x z); now constructor.
Qed.

Lemma sorted_Sorted l : Sorted (fun a b => leb a b = true) (sorted leb l).
Proof.
  induction l as [|x l IH]; simpl; [constructor|].
  now apply insert_sorted_Sorted.
Qed.

End SortedFacts.

Lemma least_spec (x : Z) (l : list Z) :
  In (pd.least Z.leb x l) (x :: l) /\
  Forall (fun y => pd.least Z.leb x l <= y) (x :: l).
Proof.
  unfold pd.least. revert x.
  induction l as [|y l IH]; intros x; simpl.
  - split; [now left | repeat constructor; lia].
  - destruct (IH (if y <=? x then y else x)) as [Hin Hall].
    inversion Hall as [|? ? Hm Hrest]; subst.
    split.
    + destruct Hin as [Hin|Hin]; [|now right; right].
      rewrite <- Hin. destruct (y <=? x); [right; left | left]; reflexivity.
    + destruct (Z.leb_spec y x); repeat constructor; try exact Hrest; lia.
Qed.

Lemma greatest_spec (x : Z) (l : list Z) :
  In (pd.greatest Z.leb x l) (x :: l) /\
  Forall (fun y => y <= pd.greatest Z.leb x l) (x :: l).
Proof.
  unfold pd.greatest. revert x.
  induction l as [|y l IH]; intros x; simpl.
  - split; [now left | repeat constructor; lia].
  - destruct (IH (if x <=? y then y else x)) as [Hin Hall].
    inversion Hall as [|? ? Hm Hrest]; subst.
    split.
    + destruct Hin as [Hin|Hin]; [|now right; right].
      rewrite <- Hin. destruct (x <=? y); [right; left | left]; reflexivity.
    + destruct (Z.leb_spec x y); repeat constructor; try exact Hrest; lia.
Qed.

(** X4.  On a table with rows the bounds of the rank slider are the smallest and
    the largest rank of the table, and the filter set to the full range of
    the slider, with no country selected, returns the whole table, whatever
    the ranks are. *)
Theorem main_sidebar_full_range (df : DataFrame) (ranks : list Z)
  (countries : list string) :
  aligned df ->
  getitem df "Global Rank" = Ok (IntSeries ranks) ->
  getitem df "Country" = Ok (ObjSeries countries) ->
  ranks <> [] ->
  exists options min_value max_value,
    main_sidebar df = Ok (options, (min_value, max_value)) /\
    In min_value ranks /\ In max_value ranks /\
    Forall (fun r => min_value <= r <= max_value) ranks /\
    main_filter df [] (min_value, max_value) = Ok df.
Proof.
  intros Hal Hr Hc Hne. destruct ranks as [|x v]; [congruence|].
  destruct (least_spec x v) as [Hmin_in Hmin].
  destruct (greatest_spec x v) as [Hmax_in Hmax].
  assert (Hrange : Forall (fun r => pd.least Z.leb x v <= r <= pd.greatest Z.leb x v)
                          (x :: v)).
  { rewrite Forall_forall in *. intros r Hin.
    specialize (Hmin r Hin). specialize (Hmax r Hin). simpl in *. lia. }
  exists (map LStr (sorted String.leb (pd.unique String.eqb countries))),
         (pd.least Z.leb x v), (pd.greatest Z.leb x v).
  split.
  { unfold main_sidebar. rewrite Hc. simpl bind. rewrite Hr. reflexivity. }
  split; [exact Hmin_in|]. split; [exact Hmax_in|]. split; [exact Hrange|].
  rewrite (rank_filter_run _ _ _ _ Hr). f_equal.
  apply boolean_index_all; [exact Hal | now apply range_mask_all |].
  rewrite range_mask_length. exact (aligned_getitem _ _ _ Hal Hr).
Qed.

(** X5.  The country options of the sidebar list every country of the table
    once, in ascending order. *)
Theorem main_sidebar_options (df : DataFrame) (countries : list string)
  (options : list label) (bounds : Z * Z) :
  getitem df "Country" = Ok (ObjSeries countries) ->
  main_sidebar df = Ok (options, bounds) ->
  exists names,
    options = map LStr names /\
    Sorted (fun a b => String.leb a b = true) names /\
    NoDup names /\
    forall c, In c names <-> In c countries.
Proof.
  intros Hc Hrun. unfold main_sidebar in Hrun. rewrite Hc in Hrun. simpl bind in Hrun.
  exists (sorted String.leb (pd.unique String.eqb countries)).
  split.
  { destruct (getitem df "Global Rank") as [r|e]; [|discriminate].
    simpl bind in Hrun.
    destruct (int_of_scalar (pd.smin r)); [|discriminate]. simpl bind in Hrun.
    destruct (int_of_scalar (pd.smax r)); [|discriminate]. simpl bind in Hrun.
    now injection Hrun as <- _. }
  pose proof (sorted_perm String.leb (pd.unique String.eqb countries)) as Hperm.
  split; [apply sorted_Sorted, String.leb_total|].
  split.
  { apply (Permutation_NoDup (Permutation_sym Hperm)), NoDup_unique, string_eqb_eq. }
  intros c. split; intros Hin.
  - apply (In_unique String.eqb string_eqb_eq).
    exact (Permutation_in _ Hperm Hin).
  - apply (Permutation_in _ (Permutation_sym Hperm)).
    now apply (In_unique String.eqb string_eqb_eq).
Qed.

(** ** Further counting aggregates *)

Lemma occurrences_pos (k : string) (l : list string) :
  In k l -> (0 < occurrences String.eqb k l)%nat.
Proof.
  intros Hin. unfold occurrences.
  assert (In k (filter (String.eqb k) l)) as H
    by (apply filter_In; split; [exact Hin | apply String.eqb_refl]).
  destruct (filter (String.eqb k) l); [contradiction | simpl; lia].
Qed.

Lemma total_count_app {K : Type} (a b : list (K * nat)) :
  total_count (a ++ b) = (total_count a + total_count b)%nat.
Proof.
  unfold total_count. induction a as [|e a IH]; simpl; [reflexivity|].
  rewrite IH. lia.
Qed.

Lemma total_count_firstn {K : Type} k (l : list (K * nat)) :
  (total_count (firstn k l) <= total_count l)%nat.
Proof.
  rewrite <- (firstn_skipn k l) at 2. rewrite total_count_app. lia.
Qed.

Lemma count_mask {A : Type} (p : A -> bool) (l : list A) :
  length (filter (fun b => b) (map p l)) = length (filter p l).
Proof.
  induction l as [|x l IH]; simpl; [reflexivity|].
  destruct (p x); simpl; now rewrite IH.
Qed.

Lemma NoDup_map_LStr (l : list string) : NoDup l -> NoDup (map LStr l).
Proof.
  induction 1 as [|x l Hnot Hnd IH]; simpl; constructor; [|exact IH].
  rewrite in_map_iff. intros (y & [= ->] & Hin). contradiction.
Qed.

Section FurtherAggregates.

Context {N : Nargsort} (Hsort : sorts_descending N).

Lemma value_counts_text_perm (l : list string) :
  Permutation (pd.value_counts (ObjSeries l)) (pd.relabel LStr (pd.tally String.eqb l)).
Proof. apply (sort_values_desc_perm Hsort). Qed.

(** X6.  The counts behind the world map, in the dashboard and in the script:
    every country of the table once, with the number of its rows, which is
    never zero; together the counts make up the number of rows. *)
Theorem world_map_counts (df : DataFrame) (countries : list string) :
  aligned df ->
  getitem df "Country" = Ok (ObjSeries countries) ->
  exists counts,
    create_world_map df = Ok counts /\
    create_university_map df = Ok counts /\
    total_count counts = nrows df /\
    Permutation (map fst counts) (map LStr (pd.unique String.eqb countries)) /\
    NoDup (map fst counts) /\
    forall k c, In (LStr k, c) counts ->
      c = occurrences String.eqb k countries /\ (0 < c)%nat.
Proof.
  intros Hal Hc.
  pose proof (aligned_getitem _ _ _ Hal Hc) as Hlen. simpl in Hlen.
  pose proof (value_counts_text_perm countries) as Hperm.
  assert (Hkeys : Permutation (map fst (pd.value_counts (ObjSeries countries)))
                              (map LStr (pd.unique String.eqb countries))).
  { rewrite (Permutation_map fst Hperm).
    now rewrite keys_relabel, (keys_tally _ string_eqb_eq). }
  exists (pd.value_counts (ObjSeries countries)).
  split; [unfold create_world_map; now rewrite Hc|].
  split; [unfold create_university_map; now rewrite Hc|].
  split; [now rewrite (value_counts_text_total Hsort)|].
  split; [exact Hkeys|].
  split.
  { apply (Permutation_NoDup (Permutation_sym Hkeys)).
    apply NoDup_map_LStr, NoDup_unique, string_eqb_eq. }
  intros k c Hin.
  apply (Permutation_in _ Hperm), In_relabel_LStr in Hin.
  pose proof (tally_entry _ string_eqb_eq _ _ _ Hin) as Hcount.
  split; [exact Hcount|]. subst c. apply occurrences_pos.
  apply (In_unique String.eqb string_eqb_eq).
  rewrite <- (keys_tally _ string_eqb_eq).
  now apply (in_map fst) in Hin.
Qed.

Lemma top_counts_total (l : list string) (n : Z) :
  (total_count (pd.head n (pd.value_counts (ObjSeries l))) <= length l)%nat /\
  (0 <= n -> (length (pd.unique String.eqb l) <= Z.to_nat n)%nat ->
   total_count (pd.head n (pd.value_counts (ObjSeries l))) = length l).
Proof.
  set (vc := pd.value_counts (ObjSeries l)).
  pose proof (value_counts_text_total Hsort l) as Htot. fold vc in Htot.
  split.
  - rewrite (head_prefix n vc), <- Htot. apply total_count_firstn.
  - intros Hn Hd. rewrite head_all; [exact Htot | exact Hn |].
    unfold vc. now rewrite (value_counts_text_length Hsort).
Qed.

(** X7.  On a table with rows, and asked for at least one entry, the top
    countries and the top cities charts are returned with at least one bar;
    their bars never stand for more universities than the table has, and
    stand for all of them when the chart has room for every country, or
    city.  The script draws the same charts with room for fifteen. *)
Theorem top_charts_cover (df : DataFrame) (countries cities : list string) (n : Z) :
  aligned df ->
  getitem df "Country" = Ok (ObjSeries countries) ->
  getitem df "City" = Ok (ObjSeries cities) ->
  nrows df <> 0%nat ->
  0 < n ->
  exists top_countries top_cities,
    create_top_countries_chart df n = Ok top_countries /\
    create_top_cities_chart df n = Ok top_cities /\
    top_countries <> [] /\
    top_cities <> [] /\
    (total_count top_countries <= nrows df)%nat /\
    (total_count top_cities <= nrows df)%nat /\
    ((length (pd.unique String.eqb countries) <= Z.to_nat n)%nat ->
     total_count top_countries = nrows df) /\
    ((length (pd.unique String.eqb cities) <= Z.to_nat n)%nat ->
     total_count top_cities = nrows df) /\
    plot_top_countries df = create_top_countries_chart df 15 /\
    analyze_university_cities df = create_top_cities_chart df 15.
Proof.
  intros Hal Hc Hy Hrows Hn.
  pose proof (aligned_getitem _ _ _ Hal Hc) as Hlc.
  pose proof (aligned_getitem _ _ _ Hal Hy) as Hly. simpl in Hlc, Hly.
  assert (Hcne : countries <> []) by (intros ->; simpl in Hlc; congruence).
  assert (Hyne : cities <> []) by (intros ->; simpl in Hly; congruence).
  destruct (top_counts_total countries n) as [Hc1 Hc2].
  destruct (top_counts_total cities n) as [Hy1 Hy2].
  exists (pd.head n (pd.value_counts (ObjSeries countries))),
         (pd.head n (pd.value_counts (ObjSeries cities))).
  split.
  { unfold create_top_countries_chart. rewrite Hc. simpl bind.
    now rewrite (top_chart_text Hsort _ _ Hcne Hn). }
  split.
  { unfold create_top_cities_chart. rewrite Hy. simpl bind.
    now rewrite (top_chart_text Hsort _ _ Hyne Hn). }
  split; [now apply (top_counts_nonempty Hsort)|].
  split; [now apply (top_counts_nonempty Hsort)|].
  rewrite Hlc in Hc1, Hc2. rewrite Hly in Hy1, Hy2.
  split; [exact Hc1|]. split; [exact Hy1|].
  split; [intros Hd; apply Hc2; [lia | exact Hd]|].
  split; [intros Hd; apply Hy2; [lia | exact Hd]|].
  split.
  - unfold plot_top_countries, create_top_countries_chart. rewrite Hc. simpl bind.
    now rewrite (top_chart_text Hsort _ _ Hcne) by lia.
  - unfold analyze_university_cities, create_top_cities_chart. rewrite Hy. simpl bind.
    now rewrite (top_chart_text Hsort _ _ Hyne) by lia.
Qed.

(** X8.  On a table of positive ranks the cluster counts add up to the number
    of rows: every university is counted in one cluster. *)
Theorem cluster_counts_cover (df : DataFrame) (ranks : list Z) :
  aligned df ->
  getitem df "Global Rank" = Ok (IntSeries ranks) ->
  Forall (fun r => 0 < r) ranks ->
  exists df' counts,
    create_excellence_clusters df = Ok (df', counts) /\
    total_count counts = nrows df /\
    length counts = 5%nat.
Proof.
  intros Hal Hr Hpos.
  pose proof (aligned_getitem _ _ _ Hal Hr) as Hlen. simpl in Hlen.
  do 2 eexists. split; [apply (create_excellence_clusters_run _ _ Hr)|].
  split.
  - rewrite (total_count_sort_values_desc Hsort), total_band_counts, <- Hlen.
    f_equal. apply forallb_filter_id. apply forallb_forall. intros r Hin.
    rewrite Forall_forall in Hpos. apply Z.ltb_lt. now apply Hpos.
  - now rewrite (length_sort_values_desc Hsort).
Qed.

(** X9.  The pie of the top 100 shows the universities of rank 100 or better,
    each once.  On a table of positive ranks they are as many as the
    cluster counts give for the Elite cluster. *)
Theorem top_100_is_elite (df : DataFrame) (ranks : list Z) (countries : list string) :
  aligned df ->
  getitem df "Global Rank" = Ok (IntSeries ranks) ->
  getitem df "Country" = Ok (ObjSeries countries) ->
  exists pie,
    analyze_top_100 df = Ok pie /\
    total_count pie = length (filter (fun r => r <=? 100) ranks) /\
    (Forall (fun r => 0 < r) ranks ->
     exists df' counts,
       analyze_excellence_clusters df = Ok (df', counts) /\
       In (LStr "Elite (1-100)", total_count pie) counts).
Proof.
  intros Hal Hr Hc.
  pose proof (aligned_getitem _ _ _ Hal Hr) as Hlr.
  pose proof (aligned_getitem _ _ _ Hal Hc) as Hlc. simpl in Hlr, Hlc.
  set (mask := map (fun r => r <=? 100) ranks).
  exists (pd.value_counts (ObjSeries (pd.select mask countries))).
  assert (Htot : total_count (pd.value_counts (ObjSeries (pd.select mask countries)))
                 = length (filter (fun r => r <=? 100) ranks)).
  { rewrite (value_counts_text_total Hsort), length_select.
    - apply count_mask.
    - unfold mask. rewrite length_map. lia. }
  split.
  { unfold analyze_top_100. rewrite Hr. simpl bind. fold mask.
    rewrite getitem_boolean_index, Hc. reflexivity. }
  split; [exact Htot|].
  intros Hpos. do 2 eexists.
  split; [apply (create_excellence_clusters_run _ _ Hr)|].
  apply (Permutation_in _ (Permutation_sym (sort_values_desc_perm Hsort _))).
  left. f_equal. rewrite Htot. unfold ranks_in. f_equal.
  apply filter_ext_in. intros r Hin. unfold in_band.
  rewrite Forall_forall in Hpos. specialize (Hpos r Hin).
  destruct (Z.ltb_spec 0 r); [reflexivity | lia].
Qed.

End FurtherAggregates.

(** ** The rankings explorer *)

Lemma among_In keys c : among keys c = true <-> In (LStr c) keys.
Proof.
  unfold among. rewrite existsb_exists. split.
  - intros ([z|t] & Hin & Heq); [discriminate|].
    apply String.eqb_eq in Heq. now subst t.
  - intros Hin. exists (LStr c). split; [exact Hin | apply String.eqb_refl].
Qed.

Lemma select_filter {A : Type} (p : A -> bool) (l : list A) :
  pd.select (map p l) l = filter p l.
Proof.
  induction l as [|x l IH]; simpl; [reflexivity|].
  destruct (p x); now rewrite IH.
Qed.

Lemma occurrences_filter (p : string -> bool) c l :
  p c = true ->
  occurrences String.eqb c (filter p l) = occurrences String.eqb c l.
Proof.
  intros Hp. unfold occurrences. f_equal.
  induction l as [|x l IH]; simpl; [reflexivity|].
  destruct (String.eqb_spec c x) as [<-|Hne].
  - rewrite Hp. simpl. rewrite String.eqb_refl. now rewrite IH.
  - destruct (p x); simpl; [|exact IH].
    destruct (String.eqb_spec c x); [contradiction|exact IH].
Qed.

Lemma px_column_boolean_index df mask name s :
  getitem df name = Ok s ->
  px_column (pd.boolean_index df mask) name = Ok (pd.select_series mask s).
Proof.
  intros Hget. apply getitem_Ok in Hget.
  unfold px_column, pd.boolean_index. simpl. now rewrite lookup_map_snd, Hget.
Qed.

Lemma length_head_20 {A : Type} (l : list A) : (length (pd.head 20 l) <= 20)%nat.
Proof.
  rewrite length_head. change (0 <=? 20) with true. cbv iota.
  change (Z.to_nat 20) with 20%nat. apply Nat.le_min_l.
Qed.

Section Explorer.

Context {N : Nargsort} (Hsort : sorts_descending N).

(** X10.  The rankings explorer shows the rows of at most twenty countries, and
    of each of these countries every row, in the order of the table: no
    country is shown in part.  When the table has at most twenty countries
    it is shown whole. *)
Theorem rankings_explorer_rows (df : DataFrame) (countries : list string) :
  well_formed df ->
  getitem df "Country" = Ok (ObjSeries countries) ->
  exists df_top keys,
    create_rankings_explorer df = Ok df_top /\
    (length keys <= 20)%nat /\
    getitem df_top "Country" = Ok (ObjSeries (filter (among keys) countries)) /\
    aligned df_top /\
    column_names df_top = column_names df /\
    (forall c, In (LStr c) keys ->
       In c countries /\
       occurrences String.eqb c (filter (among keys) countries) =
       occurrences String.eqb c countries) /\
    (length (pd.unique String.eqb (filter (among keys) countries)) <= 20)%nat /\
    ((length (pd.unique String.eqb countries) <= 20)%nat -> df_top = df).
Proof.
  intros (Hal & [ranks Hr] & [names Hu] & [countries' Hc'] & [cities Hy]) Hc.
  clear countries' Hc'.
  pose proof (aligned_getitem _ _ _ Hal Hc) as Hlen. simpl in Hlen.
  set (vc := pd.value_counts (ObjSeries countries)).
  set (keys := map fst (pd.head 20 vc)).
  assert (Hmask : pd.isin_index (ObjSeries countries) keys = map (among keys) countries)
    by reflexivity.
  assert (Hkeys_in : forall c, In (LStr c) keys -> In c countries).
  { intros c Hin. unfold keys in Hin. rewrite (head_prefix 20 vc) in Hin.
    assert (In (LStr c) (map fst vc)) as Hin'.
    { rewrite <- (firstn_skipn (length (pd.head 20 vc)) vc), map_app.
      apply in_or_app. now left. }
    apply (Permutation_in _ (Permutation_map fst (value_counts_text_perm Hsort countries)))
      in Hin'.
    rewrite keys_relabel, (keys_tally _ string_eqb_eq) in Hin'.
    apply in_map_iff in Hin'. destruct Hin' as (c' & [= ->] & Hin').
    now apply (proj1 (In_unique String.eqb string_eqb_eq _ _)). }
  exists (pd.boolean_index df (map (among keys) countries)), keys.
  split.
  { unfold create_rankings_explorer. rewrite Hc. cbn [bind].
    fold vc. fold keys. rewrite Hmask.
    rewrite (px_column_boolean_index _ _ _ _ Hr), (px_column_boolean_index _ _ _ _ Hc),
      (px_column_boolean_index _ _ _ _ Hu), (px_column_boolean_index _ _ _ _ Hy).
    reflexivity. }
  split.
  { unfold keys. rewrite length_map. apply length_head_20. }
  split.
  { rewrite getitem_boolean_index, Hc. simpl. now rewrite select_filter. }
  split.
  { apply boolean_index_aligned; [exact Hal | now rewrite length_map]. }
  split; [apply column_names_boolean_index|].
  split.
  { intros c Hin. split; [now apply Hkeys_in|].
    apply occurrences_filter. now apply among_In. }
  split.
  { assert (Hincl : incl (map LStr (pd.unique String.eqb (filter (among keys) countries)))
                         keys).
    { intros k Hk. apply in_map_iff in Hk. destruct Hk as (c & <- & Hin).
      apply (proj1 (In_unique String.eqb string_eqb_eq _ _)) in Hin.
      apply filter_In in Hin. now apply among_In. }
    apply NoDup_incl_length in Hincl.
    - rewrite length_map in Hincl.
      assert (length keys <= 20)%nat
        by (unfold keys; rewrite length_map; apply length_head_20).
      lia.
    - apply NoDup_map_LStr, NoDup_unique, string_eqb_eq. }
  intros Hd.
  apply boolean_index_all; [exact Hal | | now rewrite length_map].
  apply Forall_map, Forall_forall. intros c Hin.
  apply among_In. unfold keys.
  rewrite head_all; [| lia |].
  2: { unfold vc. rewrite (value_counts_text_length Hsort). exact Hd. }
  apply (Permutation_in _ (Permutation_sym
           (Permutation_map fst (value_counts_text_perm Hsort countries)))).
  rewrite keys_relabel, (keys_tally _ string_eqb_eq).
  apply in_map. now apply (proj2 (In_unique String.eqb string_eqb_eq _ _)).
Qed.

End Explorer.

(** ** The cluster column, row by row *)

Lemma searchsorted_left_mono bins x y :
  x <= y -> (pd.searchsorted_left bins x <= pd.searchsorted_left bins y)%nat.
Proof.
  intros Hxy. induction bins as [|b bins IH]; simpl; [lia|].
  destruct b as [z|]; simpl; [|lia].
  destruct (Z.ltb_spec z x), (Z.ltb_spec z y); lia.
Qed.

(** [pd.cut] never gives the better of two values the later bin. *)
Lemma cut_code_mono bins x y i j :
  x <= y -> pd.cut_code bins x = Some i -> pd.cut_code bins y = Some j ->
  (i <= j)%nat.
Proof.
  intros Hxy. unfold pd.cut_code.
  pose proof (searchsorted_left_mono bins x y Hxy).
  destruct (Nat.eqb_spec (pd.searchsorted_left bins x) 0);
    destruct (Nat.eqb_spec (pd.searchsorted_left bins x) (length bins));
    simpl; try discriminate.
  destruct (Nat.eqb_spec (pd.searchsorted_left bins y) 0);
    destruct (Nat.eqb_spec (pd.searchsorted_left bins y) (length bins));
    simpl; try discriminate.
  intros [= <-] [= <-]. lia.
Qed.

Lemma assign_select name s mask cols :
  map (fun c => (fst c, pd.select_series mask (snd c))) (assign name s cols) =
  assign name (pd.select_series mask s)
         (map (fun c => (fst c, pd.select_series mask (snd c))) cols).
Proof.
  induction cols as [|[n s0] rest IH]; simpl; [reflexivity|].
  destruct (String.eqb n name); simpl; [reflexivity | now rewrite IH].
Qed.

Section ClusterColumn.

Context {N : Nargsort}.

(** X11.  In the column [Ranking_Cluster] a university never stands in a later
    cluster than a university of a worse rank, and every cluster written
    is one of the five. *)
Theorem better_rank_earlier_cluster (df df1 : DataFrame)
  (counts : list (label * nat)) (ranks : list Z) :
  getitem df "Global Rank" = Ok (IntSeries ranks) ->
  create_excellence_clusters df = Ok (df1, counts) ->
  exists codes,
    getitem df1 "Ranking_Cluster" = Ok (CatSeries cluster_labels codes) /\
    length codes = length ranks /\
    (forall a i, nth_error codes a = Some (Some i) -> (i < 5)%nat) /\
    forall a b r1 r2 i j,
      nth_error ranks a = Some r1 -> nth_error ranks b = Some r2 ->
      nth_error codes a = Some (Some i) -> nth_error codes b = Some (Some j) ->
      r1 <= r2 -> (i <= j)%nat.
Proof.
  intros Hr Hrun.
  rewrite (create_excellence_clusters_run _ _ Hr) in Hrun. injection Hrun as <- _.
  exists (cluster_codes ranks).
  split; [unfold getitem, setitem; simpl; now rewrite lookup_assign_same|].
  split; [unfold cluster_codes; apply length_map|].
  split.
  - intros a i Ha. unfold cluster_codes in Ha.
    apply nth_error_In, in_map_iff in Ha. destruct Ha as (r & Hcode & _).
    rewrite cut_code_cluster_bins in Hcode.
    repeat match type of Hcode with
           | (if ?c then _ else _) = _ => destruct c
           end; try discriminate; injection Hcode as <-; lia.
  - intros a b r1 r2 i j Ha Hb Hca Hcb Hle.
    rewrite (nth_error_cluster_codes _ _ _ Ha) in Hca.
    rewrite (nth_error_cluster_codes _ _ _ Hb) in Hcb.
    injection Hca as Hca. injection Hcb as Hcb.
    exact (cut_code_mono cluster_bins r1 r2 i j Hle Hca Hcb).
Qed.

(** X12.  Clustering a selection of rows gives the selected rows of the
    clustered table: whether the dashboard filters before or after it
    clusters makes no difference to the table. *)
Theorem clusters_of_selected_rows (df df1 : DataFrame)
  (counts : list (label * nat)) (mask : list bool) :
  create_excellence_clusters df = Ok (df1, counts) ->
  exists counts',
    create_excellence_clusters (pd.boolean_index df mask) =
    Ok (pd.boolean_index df1 mask, counts').
Proof.
  intros Hrun.
  assert (exists ranks, getitem df "Global Rank" = Ok (IntSeries ranks)) as [ranks Hr].
  { unfold create_excellence_clusters in Hrun.
    destruct (getitem df "Global Rank") as [[v|v|cs v]|e]; simpl in Hrun;
      try discriminate.
    now exists v. }
  rewrite (create_excellence_clusters_run _ _ Hr) in Hrun. injection Hrun as <- _.
  eexists.
  rewrite (create_excellence_clusters_run _ (pd.select mask ranks)).
  2: { rewrite getitem_boolean_index, Hr. reflexivity. }
  f_equal. f_equal.
  unfold pd.boolean_index, setitem. simpl. f_equal.
  rewrite assign_select. simpl. unfold cluster_codes. now rewrite select_map.
Qed.

End ClusterColumn.

(** ** The rows of the concentration index *)

Lemma round_half_even_le n d m :
  0 < d -> n <= m * d -> pd.round_half_even n d <= m.
Proof.
  intros Hd Hn. unfold pd.round_half_even.
  pose proof (Z.div_mod n d ltac:(lia)) as Hdm.
  pose proof (Z.mod_pos_bound n d Hd) as Hb.
  assert (n / d <= m) by (apply Z.div_le_upper_bound; lia).
  assert (n / d = m -> n mod d = 0) by nia.
  destruct (Z.ltb_spec (2 * (n mod d)) d); [lia|].
  assert (n / d < m) by lia.
  destruct (d <? 2 * (n mod d)); [lia|].
  destruct (Z.even (n / d)); lia.
Qed.

Lemma count_le_total {K : Type} (k : K) c (t : list (K * nat)) :
  In (k, c) t -> (c <= total_count t)%nat.
Proof.
  unfold total_count. induction t as [|[k0 c0] t IH]; simpl; [tauto|].
  intros [[= -> ->]|Hin]; [lia|]. specialize (IH Hin). lia.
Qed.

Lemma cumsum_from_firstn k acc l :
  firstn k (pd.cumsum_from acc l) = pd.cumsum_from acc (firstn k l).
Proof.
  revert acc l. induction k as [|k IH]; intros acc [|x l]; simpl; try reflexivity.
  now rewrite IH.
Qed.

Lemma concentration_frame_shares (g : nat -> option Z) counts cumulative :
  Forall (fun r => Share_of_Total r = g (University_Count r))
         (concentration_frame counts (map (fun kc => g (snd kc)) counts) cumulative).
Proof.
  revert cumulative. induction counts as [|[k c] counts IH]; intros [|q cumulative];
    simpl; constructor; [reflexivity | apply IH].
Qed.

Section ConcentrationRows.

Context {N : Nargsort} (Hsort : sorts_descending N).

(** X13.  The concentration index lists the ten most frequent countries with
    their counts; each share is the percentage of the count in the number
    of rows, to the nearest hundredth, between 0 and 100; and each
    cumulative share is the sum of the shares down to its row. *)
Theorem concentration_rows (df : DataFrame) (countries : list string) :
  aligned df ->
  getitem df "Country" = Ok (ObjSeries countries) ->
  nrows df <> 0%nat ->
  exists rows,
    calculate_concentration_index df = Ok rows /\
    map (fun r => (Country r, University_Count r)) rows =
      pd.head 10 (pd.value_counts (ObjSeries countries)) /\
    Forall (fun r =>
              exists z,
                Share_of_Total r = Some z /\
                2 * Z.abs (Z.of_nat (nrows df) * z
                           - 10000 * Z.of_nat (University_Count r))
                  <= Z.of_nat (nrows df) /\
                0 <= z <= 10000) rows /\
    map Cumulative_Share rows = pd.cumsum (map Share_of_Total rows).
Proof.
  intros Hal Hc Hnz.
  pose proof (aligned_getitem _ _ _ Hal Hc) as Hlen. simpl in Hlen.
  unfold calculate_concentration_index. rewrite Hc. cbn [bind].
  set (vc := pd.value_counts (ObjSeries countries)).
  set (share := map (fun kc => pd.share_of_total (nrows df) (snd kc)) vc).
  destruct (concentration_frame_columns vc share (pd.cumsum share))
    as (Hcum & Hshare & Hcounts).
  { unfold share. apply length_map. }
  { unfold pd.cumsum.
    assert (forall acc l, length (pd.cumsum_from acc l) = length l) as Hl.
    { intros acc l. revert acc. induction l as [|x l IH]; intros acc; simpl;
        [reflexivity | now rewrite IH]. }
    rewrite Hl. unfold share. apply length_map. }
  eexists. split; [reflexivity|].
  split; [now rewrite map_head, Hcounts|].
  split.
  - rewrite head_prefix. apply Forall_firstn.
    pose proof (concentration_frame_shares (pd.share_of_total (nrows df)) vc
                  (pd.cumsum share)) as Hrows.
    fold share in Hrows.
    assert (Hin : forall r, In r (concentration_frame vc share (pd.cumsum share)) ->
                            In (Country r, University_Count r) vc).
    { intros r Hr. rewrite <- Hcounts.
      apply (in_map (fun r => (Country r, University_Count r))), Hr. }
    rewrite Forall_forall in *. intros r Hr.
    specialize (Hrows r Hr). specialize (Hin r Hr).
    rewrite share_of_total_finite in Hrows by exact Hnz.
    exists (share_hundredths (nrows df) (University_Count r)).
    split; [exact Hrows|].
    pose proof (count_le_total _ _ _ Hin) as Hle.
    unfold vc in Hle. rewrite (value_counts_text_total Hsort), Hlen in Hle.
    unfold share_hundredths. split; [|split].
    + rewrite (Z.mul_comm 10000). apply round_half_even_error. lia.
    + apply round_half_even_nonneg; lia.
    + apply round_half_even_le; lia.
  - rewrite !map_head, Hcum, Hshare. unfold pd.head, pd.cumsum.
    change (0 <=? 10) with true. cbv iota.
    apply cumsum_from_firstn.
Qed.

End ConcentrationRows.

(** ** The page *)

Lemma page_bind_run_Ok {A B : Type} (a : A) (k : A -> page B) :
  page_bind (run (Ok a)) k = k a.
Proof. unfold page_bind, run. simpl. now destruct (k a). Qed.

Lemma page_bind_run_Raise {A B : Type} (e : exn) (k : A -> page B) :
  page_bind (run (Raise e)) k = ([], Raise e).
Proof. reflexivity. Qed.

Lemma page_bind_shown {B : Type} (shown : list element) (k : unit -> page B) :
  page_bind (shown, Ok tt) k = ((shown ++ fst (k tt))%list, snd (k tt)).
Proof. reflexivity. Qed.

Lemma page_bind_stopped {A B : Type} (shown : list element) e (k : A -> page B) :
  page_bind (shown, Raise e) k = (shown, Raise e).
Proof. reflexivity. Qed.

Lemma main_sidebar_runs df ranks countries :
  getitem df "Global Rank" = Ok (IntSeries ranks) ->
  getitem df "Country" = Ok (ObjSeries countries) ->
  main_sidebar df =
  match ranks with
  | [] => Raise (ValueError "cannot convert float NaN to integer")
  | x :: v =>
      Ok (map LStr (sorted String.leb (pd.unique String.eqb countries)),
          (pd.least Z.leb x v, pd.greatest Z.leb x v))
  end.
Proof.
  intros Hr Hc. unfold main_sidebar. rewrite Hc. cbn [bind]. rewrite Hr.
  destruct ranks; reflexivity.
Qed.

Section Page.

Context {N : Nargsort}.

(** [main] is the page of the table it loads, and nothing when the table
    cannot be loaded. *)
Lemma main_after_load (fs : pd.FileSystem) (selected_countries : list string)
  (rank_range : Z * Z) (num_entries : Z) (show_raw_data : bool) :
  main fs selected_countries rank_range num_entries show_raw_data =
  match load_data fs with
  | Ok df => main_page df selected_countries rank_range num_entries show_raw_data
  | Raise e => ([], Raise e)
  end.
Proof.
  unfold main. destruct (load_data fs) as [df|e]; [|reflexivity].
  now rewrite page_bind_run_Ok.
Qed.

(** X15.  The page as a whole, once the table is loaded: on a well-formed
    table of which some row passes the filter, and with room for at least
    one entry in the top charts (the slider offers 5 to 20), it shows the
    four metrics, then the five charts, and, when the raw data are asked
    for, the filtered table, which by then holds the column
    [Ranking_Cluster]. *)
Theorem main_completes (df : DataFrame)
  (ranks : list Z) (countries : list string)
  (selected_countries : list string) (lo hi num_entries : Z) (show_raw_data : bool) :
  sorts_descending N ->
  well_formed df ->
  getitem df "Global Rank" = Ok (IntSeries ranks) ->
  getitem df "Country" = Ok (ObjSeries countries) ->
  filter (passes selected_countries lo hi) (combine ranks countries) <> [] ->
  0 < num_entries ->
  exists filtered_df clustered cluster_counts metrics charts,
    main_filter df selected_countries (lo, hi) = Ok filtered_df /\
    create_excellence_clusters filtered_df = Ok (clustered, cluster_counts) /\
    length metrics = 4%nat /\ length charts = 5%nat /\
    main_page df selected_countries (lo, hi) num_entries show_raw_data =
      ((map Shown metrics ++ map PlotlyChart charts ++
        (if show_raw_data then [Dataframe clustered] else []))%list, Ok tt) /\
    In "Ranking_Cluster" (column_names clustered) /\
    nrows clustered = nrows filtered_df.
Proof.
  intros Hsort (Hal & _ & [names Hu] & _ & [cities Hy]) Hr Hc Hkept Hnum.
  set (mask := map (passes selected_countries lo hi) (combine ranks countries)).
  set (kept := filter (passes selected_countries lo hi) (combine ranks countries)) in *.
  pose proof (main_filter_selects _ _ _ selected_countries lo hi Hal Hr Hc) as Hsel.
  fold mask in Hsel.
  destruct (main_filter_frame df ranks countries selected_countries lo hi Hal Hr Hc)
    as (fdf & Hrun & Hfr & Hfc & Hn & Hfal & _).
  fold kept in Hfr, Hfc, Hn.
  rewrite Hsel in Hrun. injection Hrun as <-.
  set (fdf := pd.boolean_index df mask) in *.
  assert (Hfy : getitem fdf "City" = Ok (ObjSeries (pd.select mask cities))).
  { unfold fdf. rewrite getitem_boolean_index, Hy. reflexivity. }
  assert (Hranks : ranks <> []).
  { intros ->. apply Hkept. reflexivity. }
  assert (Hkr : map fst kept <> []) by (destruct kept; [congruence | discriminate]).
  assert (Hkc : map snd kept <> []) by (destruct kept; [congruence | discriminate]).
  assert (Hky : pd.select mask cities <> []).
  { pose proof (aligned_getitem _ _ _ Hfal Hfy) as Hly. cbn [series_len] in Hly.
    intros Hnil. rewrite Hnil, Hn in Hly. destruct kept; [congruence | discriminate]. }
  pose proof (main_sidebar_runs df ranks countries Hr Hc) as Hside.
  destruct ranks as [|x v]; [congruence|].
  pose proof (main_key_metrics_run fdf _ _ _ Hfr Hfc Hfy) as Hmet.
  destruct (map fst kept) as [|r0 rs] eqn:Ekr; [congruence|].
  pose proof (create_excellence_clusters_run fdf (r0 :: rs) Hfr) as Hclu.
  eexists fdf, _, _,
    (count_metrics fdf (map snd kept) (pd.select mask cities) ++ [_])%list,
    [Counts _; Counts _; Counts _; Column _; Counts _].
  split; [exact Hsel|]. split; [exact Hclu|].
  split; [reflexivity|]. split; [reflexivity|].
  split.
  - unfold main_page. rewrite Hside, page_bind_run_Ok.
    rewrite Hsel, page_bind_run_Ok, Hmet.
    unfold metrics_on_page. cbn [fst snd]. rewrite page_bind_shown.
    unfold create_world_map, create_top_countries_chart, create_top_cities_chart,
      create_ranking_distribution.
    rewrite Hfc, Hfy, Hfr, Hclu. cbn [bind].
    rewrite (top_chart_text Hsort _ _ Hkc Hnum), (top_chart_text Hsort _ _ Hky Hnum).
    cbn [bind].
    rewrite !page_bind_run_Ok. unfold st_plotly_chart, st_dataframe.
    rewrite !page_bind_shown. cbn [fst snd].
    destruct show_raw_data; cbn [fst snd app]; rewrite ?app_nil_r; reflexivity.
  - split; [|reflexivity].
    destruct (setitem_frame fdf "Ranking_Cluster"
                (CatSeries cluster_labels (cluster_codes (r0 :: rs))))
      as (_ & _ & _ & Hnames).
    rewrite Hnames.
    destruct (existsb (String.eqb "Ranking_Cluster") (column_names fdf)) eqn:E.
    + apply existsb_exists in E. destruct E as (c & Hin & Heq).
      apply String.eqb_eq in Heq. now subst c.
    + apply in_or_app. right. now left.
Qed.

(** X16.  Where the page stops short: when the table has rows but the
    selections leave none, it shows the three counts as zero and raises
    instead of showing the average rank, so that no chart is drawn. *)
Theorem main_stops (df : DataFrame)
  (ranks : list Z) (countries cities : list string)
  (selected_countries : list string) (lo hi num_entries : Z) (show_raw_data : bool) :
  aligned df ->
  getitem df "Global Rank" = Ok (IntSeries ranks) ->
  getitem df "Country" = Ok (ObjSeries countries) ->
  getitem df "City" = Ok (ObjSeries cities) ->
  ranks <> [] ->
  filter (passes selected_countries lo hi) (combine ranks countries) = [] ->
  main_page df selected_countries (lo, hi) num_entries show_raw_data =
    ([Shown (Metric "Total Universities" 0); Shown (Metric "Countries" 0);
      Shown (Metric "Cities" 0)],
     Raise (ValueError "cannot convert float NaN to integer")).
Proof.
  intros Hal Hr Hc Hy Hne Hkept.
  pose proof (main_sidebar_runs df ranks countries Hr Hc) as Hside.
  pose proof (main_filter_selects _ _ _ selected_countries lo hi Hal Hr Hc) as Hsel.
  destruct (main_filter_frame df ranks countries selected_countries lo hi Hal Hr Hc)
    as (fdf & Hrun & Hfr & Hfc & Hn & Hfal & _).
  rewrite Hsel in Hrun. injection Hrun as <-.
  set (mask := map (passes selected_countries lo hi) (combine ranks countries)) in *.
  destruct ranks as [|x v]; [congruence|].
  rewrite Hkept in Hfr, Hfc, Hn. cbn [map filter] in Hfr, Hfc.
  change (length (@nil (Z * string))) with 0%nat in Hn.
  assert (Hfy : getitem (pd.boolean_index df mask) "City"
                = Ok (ObjSeries (pd.select mask cities))).
  { rewrite getitem_boolean_index, Hy. reflexivity. }
  pose proof (aligned_getitem _ _ _ Hfal Hfy) as Hly. cbn [series_len] in Hly.
  rewrite Hn in Hly. apply length_zero_iff_nil in Hly.
  rewrite Hly in Hfy.
  pose proof (main_key_metrics_run _ _ _ _ Hfr Hfc Hfy) as Hmet.
  unfold main_page.
  rewrite Hside, page_bind_run_Ok.
  rewrite Hsel, page_bind_run_Ok, Hmet.
  unfold metrics_on_page, count_metrics. cbn [fst snd].
  rewrite page_bind_stopped, Hn. reflexivity.
Qed.

(** X18.  On a table without rows the page raises before anything is
    shown, for want of bounds for the rank slider: the least rank of an
    empty column, whether of integers or of text, is not a number. *)
Theorem main_without_rows (df : DataFrame) (ranks : Series) (countries : list string)
  (selected_countries : list string) (rank_range : Z * Z) (num_entries : Z)
  (show_raw_data : bool) :
  getitem df "Country" = Ok (ObjSeries countries) ->
  getitem df "Global Rank" = Ok ranks ->
  ranks = IntSeries [] \/ ranks = ObjSeries [] ->
  main_page df selected_countries rank_range num_entries show_raw_data =
    ([], Raise (ValueError "cannot convert float NaN to integer")).
Proof.
  intros Hc Hr Hempty. unfold main_page, main_sidebar.
  rewrite Hc. cbn [bind]. rewrite Hr.
  destruct Hempty as [-> | ->]; reflexivity.
Qed.

(** X19.  On a table with rows and without the column [City] the page
    shows the total and the number of countries and then raises
    [KeyError], whatever is selected. *)
Theorem main_without_city (df : DataFrame)
  (ranks : list Z) (countries : list string)
  (selected_countries : list string) (lo hi num_entries : Z) (show_raw_data : bool) :
  aligned df ->
  getitem df "Global Rank" = Ok (IntSeries ranks) ->
  getitem df "Country" = Ok (ObjSeries countries) ->
  ranks <> [] ->
  lookup "City" (columns df) = None ->
  main_page df selected_countries (lo, hi) num_entries show_raw_data =
    ([Shown (Metric "Total Universities"
               (Z.of_nat (length (filter (passes selected_countries lo hi)
                                         (combine ranks countries)))));
      Shown (Metric "Countries"
               (Z.of_nat (length (pd.unique String.eqb
                  (map snd (filter (passes selected_countries lo hi)
                                   (combine ranks countries)))))))],
     Raise (KeyError "City")).
Proof.
  intros Hal Hr Hc Hne Hnone.
  pose proof (main_sidebar_runs df ranks countries Hr Hc) as Hside.
  pose proof (main_filter_selects _ _ _ selected_countries lo hi Hal Hr Hc) as Hsel.
  destruct (main_filter_frame df ranks countries selected_countries lo hi Hal Hr Hc)
    as (fdf & Hrun & Hfr & Hfc & Hn & Hfal & _).
  rewrite Hsel in Hrun. injection Hrun as <-.
  set (mask := map (passes selected_countries lo hi) (combine ranks countries)) in *.
  destruct ranks as [|x v]; [congruence|].
  assert (Hfy : getitem (pd.boolean_index df mask) "City" = Raise (KeyError "City")).
  { rewrite getitem_boolean_index. now rewrite (getitem_Raise _ _ Hnone). }
  unfold main_page.
  rewrite Hside, page_bind_run_Ok.
  rewrite Hsel, page_bind_run_Ok.
  unfold main_key_metrics, ui_bind, eval, st_metric, metrics_on_page.
  cbn [fst snd]. rewrite Hfc. cbn [fst snd app]. rewrite Hfy. cbn [fst snd app map].
  rewrite page_bind_stopped, Hn. reflexivity.
Qed.

End Page.

(** ** The script, one analysis after another *)

Section ScriptOrder.

Context {N : Nargsort}.

(** X17.  The script computes the rank brackets before most of its other
    analyses.  The column that this adds to the global table changes none
    of the later results: the top cities, the pie of the top 100, the
    cluster counts and the concentration index are what they are on the
    table as loaded. *)
Theorem rank_brackets_leave_analyses
  (qcut : Series -> nat -> list string -> result Series)
  (df df2 : DataFrame) (brackets : list (label * nat)) :
  analyze_ranking_distribution qcut df = Ok (df2, brackets) ->
  analyze_university_cities df2 = analyze_university_cities df /\
  analyze_top_100 df2 = analyze_top_100 df /\
  calculate_concentration_index df2 = calculate_concentration_index df /\
  (forall df3 counts,
     analyze_excellence_clusters df = Ok (df3, counts) ->
     exists df4, analyze_excellence_clusters df2 = Ok (df4, counts) /\
                 getitem df4 "Rank_Bracket" = getitem df2 "Rank_Bracket").
Proof.
  intros Hq. unfold analyze_ranking_distribution in Hq.
  destruct (getitem df "Global Rank") as [r|e] eqn:Hr; [|discriminate].
  cbn [bind] in Hq.
  destruct (qcut r 10%nat rank_bracket_labels) as [rb|e]; [|discriminate].
  cbn [bind] in Hq.
  destruct (setitem_frame df "Rank_Bracket" rb) as (Hn & Hsame & Hother & _).
  rewrite Hsame in Hq. cbn [bind] in Hq. injection Hq as <- _.
  set (df2 := setitem df "Rank_Bracket" rb) in *.
  assert (Hc : getitem df2 "Country" = getitem df "Country")
    by (apply Hother; discriminate).
  assert (Hy : getitem df2 "City" = getitem df "City")
    by (apply Hother; discriminate).
  assert (Hr2 : getitem df2 "Global Rank" = Ok r)
    by (rewrite Hother; [exact Hr | discriminate]).
  split; [unfold analyze_university_cities; now rewrite Hy|].
  split.
  { unfold analyze_top_100. rewrite Hr2, Hr. cbn [bind].
    destruct (pd.le r 100) as [mask|e]; [|reflexivity]. cbn [bind].
    now rewrite !getitem_boolean_index, Hc. }
  split; [unfold calculate_concentration_index; now rewrite Hc, Hn|].
  intros df3 counts Hrun. unfold analyze_excellence_clusters in *.
  rewrite Hr2. rewrite Hr in Hrun. cbn [bind] in *.
  destruct (pd.cut r cluster_bins cluster_labels) as [cl|e]; [|discriminate].
  cbn [bind] in *.
  destruct (setitem_frame df "Ranking_Cluster" cl) as (_ & Hs1 & _ & _).
  destruct (setitem_frame df2 "Ranking_Cluster" cl) as (_ & Hs2 & Ho2 & _).
  rewrite Hs1 in Hrun. rewrite Hs2. cbn [bind] in *.
  injection Hrun as _ <-. eexists. split; [reflexivity|].
  apply Ho2. discriminate.
Qed.

End ScriptOrder.

(** * Concrete runs

    The witnesses below run the theorems on small tables, with insertion as
    the sorting routine.  The counterexamples that turn on the order of
    equal counts hold for every routine that meets the contract. *)


#[local] Existing Instance pd.insertion_nargsort.

(** ** Top countries *)

Lemma indexer_of_two (indexer : list nat) :
  Permutation indexer [0%nat; 1%nat] ->
  indexer = [0%nat; 1%nat] \/ indexer = [1%nat; 0%nat].
Proof.
  intros Hp. apply Permutation_sym in Hp.
  exact (Permutation_length_2_inv Hp).
Qed.

(** C4, as stated, fails.  Take two countries with one university each.
    The sort sees the counts 1, 1 alone, so it takes the two countries in
    the same order of positions whichever of them the table names first:
    no sorting routine puts "A" before "B" both for the table that names
    "A" first and for the table that names "B" first.  And with [n = -1]
    the result has one entry, where clamping [n] gives none. *)
Lemma top_countries_not_lexicographic :
  ~ (exists N : Nargsort,
       sorts_descending N /\
       (exists top, create_top_countries_chart (N := N) frame_AB 2 = Ok top /\
                    spec_topN_order top = true) /\
       (exists top, create_top_countries_chart (N := N) frame_BA 2 = Ok top /\
                    spec_topN_order top = true)) /\
  ~ (exists N : Nargsort,
       sorts_descending N /\
       exists top, create_top_countries_chart (N := N) frame_BA (-1) = Ok top /\
                   length top = spec_topN_length (-1) 2).
Proof.
  split.
  - intros (N & Hs & (t1 & H1 & S1) & (t2 & H2 & S2)).
    destruct (Hs [1%nat; 1%nat]) as [Hp _].
    apply indexer_of_two in Hp.
    change (bind (px_bar (pd.head 2 (pd.take [(LStr "A", 1%nat); (LStr "B", 1%nat)]
                                       (nargsort_desc [1%nat; 1%nat]))))
                 (fun fig => Ok fig) = Ok t1) in H1.
    change (bind (px_bar (pd.head 2 (pd.take [(LStr "B", 1%nat); (LStr "A", 1%nat)]
                                       (nargsort_desc [1%nat; 1%nat]))))
                 (fun fig => Ok fig) = Ok t2) in H2.
    destruct Hp as [Hp|Hp]; rewrite Hp in H1, H2;
      injection H1 as <-; injection H2 as <-; discriminate.
  - intros (N & Hs & top & H & Hlen).
    destruct (top_counts_text Hs ["B"; "A"] (-1)) as (rest & _ & _ & _ & _ & Hl).
    change (bind (px_bar (pd.head (-1) (pd.value_counts (ObjSeries ["B"; "A"]))))
                 (fun fig => Ok fig) = Ok top) in H.
    destruct (pd.head (-1) (pd.value_counts (ObjSeries ["B"; "A"]))) as [|e l];
      [discriminate|].
    injection H as <-. rewrite Hl in Hlen. discriminate.
Qed.

Lemma top_countries_order_witness :
  exists top rest,
    (top <> [] -> create_top_countries_chart frame_BA 5 = Ok top) /\
    Permutation (top ++ rest) (pd.relabel LStr (pd.tally String.eqb ["B"; "A"])) /\
    StronglySorted desc (top ++ rest) /\
    map fst (pd.relabel LStr (pd.tally String.eqb ["B"; "A"])) =
      map LStr (pd.unique String.eqb ["B"; "A"]) /\
    (forall k c, In (LStr k, c) (top ++ rest) ->
       c = occurrences String.eqb k ["B"; "A"]) /\
    length top = 2%nat.
Proof.
  exact (top_countries_order insertion_nargsort_sorts frame_BA ["B"; "A"] 5 eq_refl).
Defined.

(** ** Cluster counts *)

(** C5, as stated, fails.  With two Premier universities and one Elite
    university no sorting routine leaves the counts in band order: Elite,
    with one university, would stand before Premier, with two. *)
Lemma cluster_counts_not_in_band_order :
  ~ (exists N : Nargsort,
       sorts_descending N /\
       exists df counts,
         create_excellence_clusters (N := N) frame_three = Ok (df, counts) /\
         map fst counts = map LStr cluster_labels).
Proof.
  intros (N & Hs & df & counts & Hrun & Hkeys).
  rewrite (create_excellence_clusters_run frame_three [150; 200; 50] eq_refl) in Hrun.
  injection Hrun as _ Hcounts.
  pose proof (sort_values_desc_perm Hs (band_counts [150; 200; 50])) as Hperm.
  pose proof (sort_values_desc_sorted Hs (band_counts [150; 200; 50])) as Hsorted.
  rewrite Hcounts in Hperm, Hsorted. clear Hcounts.
  destruct counts as [|[k1 c1] [|[k2 c2] rest]]; try discriminate.
  injection Hkeys as -> -> _.
  assert (In (LStr "Elite (1-100)", c1) (band_counts [150; 200; 50])) as H1
    by (apply (Permutation_in _ Hperm); simpl; auto).
  assert (In (LStr "Premier (101-500)", c2) (band_counts [150; 200; 50])) as H2
    by (apply (Permutation_in _ Hperm); simpl; auto).
  assert (c1 = 1%nat) as ->
    by (simpl in H1; repeat destruct H1 as [H1|H1]; try discriminate;
        [now injection H1 | contradiction]).
  assert (c2 = 2%nat) as ->
    by (simpl in H2; repeat destruct H2 as [H2|H2]; try discriminate;
        [now injection H2 | contradiction]).
  inversion Hsorted as [|? ? _ Hall]; subst.
  inversion Hall as [|? ? Hd _]; subst.
  unfold desc in Hd. simpl in Hd. lia.
Qed.

Lemma cluster_counts_sorted_by_count_witness :
  exists df' counts,
    create_excellence_clusters frame_three = Ok (df', counts) /\
    analyze_excellence_clusters frame_three = Ok (df', counts) /\
    Permutation counts (band_counts [150; 200; 50]) /\
    StronglySorted desc counts.
Proof.
  exact (cluster_counts_sorted_by_count insertion_nargsort_sorts
           frame_three [150; 200; 50] eq_refl).
Defined.

Lemma nonpositive_ranks_uncounted_witness :
  exists df' counts,
    create_excellence_clusters frame_with_rank_zero = Ok (df', counts) /\
    getitem df' "Ranking_Cluster" =
      Ok (CatSeries cluster_labels [None; Some 0%nat; None]) /\
    (forall i r, nth_error [0; 50; -7] i = Some r -> r <= 0 ->
       nth_error (cluster_codes [0; 50; -7]) i = Some None /\
       assign_excellence_cluster r = None) /\
    total_count counts = 1%nat /\
    (Exists (fun r => r <= 0) [0; 50; -7] -> (total_count counts < 3)%nat).
Proof.
  exact (nonpositive_ranks_uncounted insertion_nargsort_sorts
           frame_with_rank_zero [0; 50; -7] eq_refl eq_refl).
Defined.

(** ** What a call leaves of its table *)

(** C3, as stated, fails.  After [create_excellence_clusters] the table
    holds a fifth column, [Ranking_Cluster], that it did not hold before. *)
Lemma create_excellence_clusters_changes_table :
  exists df counts,
    create_excellence_clusters frame_three = Ok (df, counts) /\
    column_names frame_three = ["Global Rank"; "University"; "Country"; "City"] /\
    column_names df =
      ["Global Rank"; "University"; "Country"; "City"; "Ranking_Cluster"] /\
    df <> frame_three.
Proof.
  do 2 eexists. split; [reflexivity|]. repeat split. discriminate.
Qed.

Lemma excellence_clusters_frame_witness :
  analyze_excellence_clusters frame_three =
    Ok (frame_three_clustered, counts_three) /\
  nrows frame_three_clustered = nrows frame_three /\
  (forall name, name <> "Ranking_Cluster" ->
     getitem frame_three_clustered name = getitem frame_three name) /\
  (exists codes,
     getitem frame_three_clustered "Ranking_Cluster" =
     Ok (CatSeries cluster_labels codes)) /\
  column_names frame_three_clustered =
    ["Global Rank"; "University"; "Country"; "City"; "Ranking_Cluster"] /\
  create_excellence_clusters frame_three_clustered =
    Ok (frame_three_clustered, counts_three) /\
  (forall qcut df2 brackets,
     analyze_ranking_distribution qcut frame_three = Ok (df2, brackets) ->
     nrows df2 = nrows frame_three /\
     (forall name, name <> "Rank_Bracket" -> getitem df2 name = getitem frame_three name) /\
     (exists s, getitem df2 "Rank_Bracket" = Ok s) /\
     column_names df2 =
       ["Global Rank"; "University"; "Country"; "City"; "Rank_Bracket"]).
Proof.
  exact (excellence_clusters_frame frame_three frame_three_clustered counts_three
           eq_refl).
Defined.

(** ** Filtering *)

Lemma filter_no_restriction_witness :
  main_filter frame_three [] (1, 200) = Ok frame_three.
Proof.
  apply (filter_no_restriction frame_three [150; 200; 50] 200);
    [repeat constructor | reflexivity | repeat constructor; lia].
Defined.

(** The hypothesis on the ranks matters: the range starts at 1, so a record
    of rank 0 does not pass. *)
Example filter_drops_rank_zero :
  main_filter frame_with_rank_zero [] (1, 50) =
  Ok (mkDataFrame 1 [("Global Rank", IntSeries [50]);
                     ("University", ObjSeries ["U1"]);
                     ("Country", ObjSeries ["USA"]);
                     ("City", ObjSeries ["LA"])]).
Proof. reflexivity. Qed.

Lemma filter_inverted_range_witness :
  exists filtered_df,
    main_filter frame_three ["X"] (1, 0) = Ok filtered_df /\
    nrows filtered_df = 0%nat /\
    column_names filtered_df = column_names frame_three /\
    Forall (fun c => series_len (snd c) = 0%nat) (columns filtered_df).
Proof.
  apply (filter_inverted_range frame_three ["X"] 1 0).
  - split; [repeat constructor | repeat split; eexists; reflexivity].
  - lia.
Defined.

(** ** Key metrics *)

(** The example of the specification: total 3, countries 2, cities 3,
    average rank 2; and its counts by country. *)
Example key_metrics_spec_example :
  main_key_metrics frame_spec_example =
    ([Metric "Total Universities" 3; Metric "Countries" 2; Metric "Cities" 3;
      Metric "Average Rank" 2],
     Ok tt) /\
  create_world_map frame_spec_example = Ok [(LStr "USA", 2%nat); (LStr "UK", 1%nat)].
Proof. split; reflexivity. Qed.

(** C8, as stated, fails.  On the empty table the three counts are shown
    as zero and then the average rank raises [ValueError] instead of
    yielding 0; and on the ranks 1, 2, 2 the average rank shown is 1, the
    mean 5/3 cut off, where rounding to the nearest integer gives 2. *)
Lemma average_rank_raises_on_empty_table :
  main_key_metrics frame_empty =
    ([Metric "Total Universities" 0; Metric "Countries" 0; Metric "Cities" 0],
     Raise (ValueError "cannot convert float NaN to integer")) /\
  main_key_metrics frame_122 =
    ([Metric "Total Universities" 3; Metric "Countries" 2; Metric "Cities" 3;
      Metric "Average Rank" 1],
     Ok tt) /\
  spec_average_rank [1; 2; 2] = 2.
Proof. repeat split. Qed.

Lemma aggregations_defined_witness :
  main_key_metrics frame_122 =
    ([Metric "Total Universities" 3; Metric "Countries" 2; Metric "Cities" 3;
      Metric "Average Rank" 1],
     Ok tt).
Proof.
  refine (proj1 (proj2 (proj2 (proj2 (proj2 (proj2 (proj2 (proj2 (proj2
    (aggregations_defined insertion_nargsort_sorts frame_122 [1; 2; 2]
       ["USA"; "USA"; "UK"] ["NYC"; "LA"; "London"] _ eq_refl eq_refl eq_refl))))))
    _)) _ _)).
  - repeat constructor.
  - discriminate.
  - repeat constructor; lia.
  - reflexivity.
Defined.

(** ** Concentration index *)

(** C1, as stated, fails.  Seven countries with one university each have
    the share 14.29 each, and the cumulative share ends at 100.03; eleven
    such countries have 9.09 each, and the ten rows that are returned end
    at 90.90.  Neither is within 0.01 of 100. *)
Lemma cumulative_share_misses_100 :
  (exists rows,
     calculate_concentration_index frame_seven = Ok rows /\
     last (map Cumulative_Share rows) None = Some 10003) /\
  (exists rows,
     calculate_concentration_index frame_eleven = Ok rows /\
     length rows = 10%nat /\
     last (map Cumulative_Share rows) None = Some 9090) /\
  ~ Z.abs (10003 - 10000) <= 1 /\
  ~ Z.abs (9090 - 10000) <= 1.
Proof.
  split; [eexists; split; reflexivity|].
  split; [eexists; repeat split; reflexivity|].
  split; simpl; lia.
Qed.

Lemma concentration_index_cumulative_witness :
  exists rows cumulative,
    calculate_concentration_index frame_seven = Ok rows /\
    length rows = 7%nat /\
    map Cumulative_Share rows = map Some cumulative /\
    StronglySorted Z.le cumulative /\
    (7%nat = 0%nat -> rows = []) /\
    (7%nat <> 0%nat ->
     (7 <= 10)%nat ->
     rows <> [] /\ 2 * Z.abs (last cumulative 0 - 10000) <= 7).
Proof.
  apply (concentration_index_cumulative insertion_nargsort_sorts frame_seven
           ["A"; "B"; "C"; "D"; "E"; "F"; "G"]).
  - repeat constructor.
  - reflexivity.
Defined.

(** ** Loading *)



(** * Further concrete runs *)

Lemma frame_three_aligned : aligned frame_three.
Proof. repeat constructor. Qed.

Lemma frame_three_well_formed : well_formed frame_three.
Proof. split; [repeat constructor | repeat split; eexists; reflexivity]. Qed.

Lemma main_filter_rows_witness :
  exists filtered_df,
    main_filter frame_three ["USA"] (100, 200) = Ok filtered_df /\
    getitem filtered_df "Global Rank" = Ok (IntSeries [150; 200]) /\
    getitem filtered_df "Country" = Ok (ObjSeries ["USA"; "USA"]) /\
    nrows filtered_df = 2%nat /\
    aligned filtered_df /\
    column_names filtered_df = column_names frame_three.
Proof.
  exact (main_filter_rows frame_three [150; 200; 50] ["USA"; "USA"; "UK"] ["USA"]
           100 200 frame_three_aligned eq_refl eq_refl).
Defined.

Lemma main_filter_again_witness :
  well_formed frame_usa /\
  main_filter frame_usa ["USA"; "UK"] (1, 200) = Ok frame_usa.
Proof.
  apply (main_filter_again frame_three frame_usa ["USA"] ["USA"; "UK"] 100 200 1 200).
  - exact frame_three_well_formed.
  - reflexivity.
  - right. split; [discriminate|]. intros c [<-|[]]. now left.
  - lia.
  - lia.
Defined.

Lemma main_sidebar_full_range_witness :
  exists options min_value max_value,
    main_sidebar frame_with_rank_zero = Ok (options, (min_value, max_value)) /\
    In min_value [0; 50; -7] /\ In max_value [0; 50; -7] /\
    Forall (fun r => min_value <= r <= max_value) [0; 50; -7] /\
    main_filter frame_with_rank_zero [] (min_value, max_value) =
      Ok frame_with_rank_zero.
Proof.
  apply (main_sidebar_full_range frame_with_rank_zero [0; 50; -7]
           ["USA"; "USA"; "UK"]).
  - repeat constructor.
  - reflexivity.
  - reflexivity.
  - discriminate.
Defined.

Lemma main_sidebar_options_witness :
  exists names,
    [LStr "UK"; LStr "USA"] = map LStr names /\
    Sorted (fun a b => String.leb a b = true) names /\
    NoDup names /\
    forall c, In c names <-> In c ["USA"; "USA"; "UK"].
Proof.
  exact (main_sidebar_options frame_three ["USA"; "USA"; "UK"]
           [LStr "UK"; LStr "USA"] (50, 200) eq_refl eq_refl).
Defined.

Lemma world_map_counts_witness :
  exists counts,
    create_world_map frame_three = Ok counts /\
    create_university_map frame_three = Ok counts /\
    total_count counts = 3%nat /\
    Permutation (map fst counts) [LStr "USA"; LStr "UK"] /\
    NoDup (map fst counts) /\
    forall k c, In (LStr k, c) counts ->
      c = occurrences String.eqb k ["USA"; "USA"; "UK"] /\ (0 < c)%nat.
Proof.
  exact (world_map_counts insertion_nargsort_sorts frame_three ["USA"; "USA"; "UK"]
           frame_three_aligned eq_refl).
Defined.

Lemma top_charts_cover_witness :
  exists top_countries top_cities,
    create_top_countries_chart frame_three 2 = Ok top_countries /\
    create_top_cities_chart frame_three 2 = Ok top_cities /\
    top_countries <> [] /\
    top_cities <> [] /\
    (total_count top_countries <= 3)%nat /\
    (total_count top_cities <= 3)%nat /\
    ((2 <= 2)%nat -> total_count top_countries = 3%nat) /\
    ((3 <= 2)%nat -> total_count top_cities = 3%nat) /\
    plot_top_countries frame_three = create_top_countries_chart frame_three 15 /\
    analyze_university_cities frame_three = create_top_cities_chart frame_three 15.
Proof.
  refine (top_charts_cover insertion_nargsort_sorts frame_three
            ["USA"; "USA"; "UK"] ["NYC"; "LA"; "London"] 2
            frame_three_aligned eq_refl eq_refl _ _).
  - discriminate.
  - lia.
Defined.

Lemma cluster_counts_cover_witness :
  exists df' counts,
    create_excellence_clusters frame_three = Ok (df', counts) /\
    total_count counts = 3%nat /\
    length counts = 5%nat.
Proof.
  apply (cluster_counts_cover insertion_nargsort_sorts frame_three [150; 200; 50]).
  - exact frame_three_aligned.
  - reflexivity.
  - repeat constructor.
Defined.

Lemma top_100_is_elite_witness :
  exists pie,
    analyze_top_100 frame_three = Ok pie /\
    total_count pie = 1%nat /\
    (Forall (fun r => 0 < r) [150; 200; 50] ->
     exists df' counts,
       analyze_excellence_clusters frame_three = Ok (df', counts) /\
       In (LStr "Elite (1-100)", total_count pie) counts).
Proof.
  exact (top_100_is_elite insertion_nargsort_sorts frame_three [150; 200; 50]
           ["USA"; "USA"; "UK"] frame_three_aligned eq_refl eq_refl).
Defined.

Lemma rankings_explorer_rows_witness :
  exists df_top keys,
    create_rankings_explorer frame_three = Ok df_top /\
    (length keys <= 20)%nat /\
    getitem df_top "Country" =
      Ok (ObjSeries (filter (among keys) ["USA"; "USA"; "UK"])) /\
    aligned df_top /\
    column_names df_top = column_names frame_three /\
    (forall c, In (LStr c) keys ->
       In c ["USA"; "USA"; "UK"] /\
       occurrences String.eqb c (filter (among keys) ["USA"; "USA"; "UK"]) =
       occurrences String.eqb c ["USA"; "USA"; "UK"]) /\
    (length (pd.unique String.eqb (filter (among keys) ["USA"; "USA"; "UK"])) <= 20)%nat /\
    ((2 <= 20)%nat -> df_top = frame_three).
Proof.
  exact (rankings_explorer_rows insertion_nargsort_sorts frame_three
           ["USA"; "USA"; "UK"] frame_three_well_formed eq_refl).
Defined.

Lemma better_rank_earlier_cluster_witness :
  exists codes,
    getitem frame_three_clustered "Ranking_Cluster" =
      Ok (CatSeries cluster_labels codes) /\
    length codes = 3%nat /\
    (forall a i, nth_error codes a = Some (Some i) -> (i < 5)%nat) /\
    forall a b r1 r2 i j,
      nth_error [150; 200; 50] a = Some r1 -> nth_error [150; 200; 50] b = Some r2 ->
      nth_error codes a = Some (Some i) -> nth_error codes b = Some (Some j) ->
      r1 <= r2 -> (i <= j)%nat.
Proof.
  exact (better_rank_earlier_cluster frame_three frame_three_clustered counts_three
           [150; 200; 50] eq_refl eq_refl).
Defined.

Lemma clusters_of_selected_rows_witness :
  exists counts',
    create_excellence_clusters (pd.boolean_index frame_three [true; false; true]) =
    Ok (pd.boolean_index frame_three_clustered [true; false; true], counts').
Proof.
  exact (clusters_of_selected_rows frame_three frame_three_clustered counts_three
           [true; false; true] eq_refl).
Defined.

Lemma concentration_rows_witness :
  exists rows,
    calculate_concentration_index frame_three = Ok rows /\
    map (fun r => (Country r, University_Count r)) rows =
      pd.head 10 (pd.value_counts (ObjSeries ["USA"; "USA"; "UK"])) /\
    Forall (fun r =>
              exists z,
                Share_of_Total r = Some z /\
                2 * Z.abs (3 * z - 10000 * Z.of_nat (University_Count r)) <= 3 /\
                0 <= z <= 10000) rows /\
    map Cumulative_Share rows = pd.cumsum (map Share_of_Total rows).
Proof.
  apply (concentration_rows insertion_nargsort_sorts frame_three ["USA"; "USA"; "UK"]).
  - exact frame_three_aligned.
  - reflexivity.
  - discriminate.
Defined.

Lemma main_completes_witness :
  exists filtered_df clustered cluster_counts metrics charts,
    main_filter frame_three [] (1, 1000) = Ok filtered_df /\
    create_excellence_clusters filtered_df = Ok (clustered, cluster_counts) /\
    length metrics = 4%nat /\ length charts = 5%nat /\
    main_page frame_three [] (1, 1000) 10 true =
      ((map Shown metrics ++ map PlotlyChart charts ++ [Dataframe clustered])%list,
       Ok tt) /\
    In "Ranking_Cluster" (column_names clustered) /\
    nrows clustered = nrows filtered_df.
Proof.
  apply (main_completes frame_three [150; 200; 50] ["USA"; "USA"; "UK"]
           [] 1 1000 10 true).
  - exact insertion_nargsort_sorts.
  - exact frame_three_well_formed.
  - reflexivity.
  - reflexivity.
  - discriminate.
  - lia.
Defined.

Lemma main_stops_witness :
  main_page frame_three ["X"] (1, 1000) 10 false =
    ([Shown (Metric "Total Universities" 0); Shown (Metric "Countries" 0);
      Shown (Metric "Cities" 0)],
     Raise (ValueError "cannot convert float NaN to integer")).
Proof.
  refine (main_stops frame_three [150; 200; 50] ["USA"; "USA"; "UK"]
            ["NYC"; "LA"; "London"] ["X"] 1 1000 10 false
            frame_three_aligned eq_refl eq_refl eq_refl _ _).
  - discriminate.
  - reflexivity.
Defined.

Lemma main_without_rows_witness :
  main_page frame_header_only [] (1, 1000) 10 false =
    ([], Raise (ValueError "cannot convert float NaN to integer")) /\
  main_page frame_empty [] (1, 1000) 10 false =
    ([], Raise (ValueError "cannot convert float NaN to integer")).
Proof.
  split.
  - apply (main_without_rows frame_header_only (ObjSeries []) []);
      [reflexivity | reflexivity | now right].
  - apply (main_without_rows frame_empty (IntSeries []) []);
      [reflexivity | reflexivity | now left].
Defined.

Lemma main_without_city_witness :
  main_page frame_without_city [] (1, 1000) 10 false =
    ([Shown (Metric "Total Universities" 1); Shown (Metric "Countries" 1)],
     Raise (KeyError "City")).
Proof.
  refine (main_without_city frame_without_city [1] ["USA"] [] 1 1000 10 false
            _ eq_refl eq_refl _ eq_refl).
  - repeat constructor.
  - discriminate.
Defined.

Lemma rank_brackets_leave_analyses_witness :
  exists df2 brackets,
    analyze_ranking_distribution deciles_of_three frame_three = Ok (df2, brackets) /\
    analyze_university_cities df2 = analyze_university_cities frame_three /\
    analyze_top_100 df2 = analyze_top_100 frame_three /\
    calculate_concentration_index df2 = calculate_concentration_index frame_three /\
    (forall df3 counts,
       analyze_excellence_clusters frame_three = Ok (df3, counts) ->
       exists df4, analyze_excellence_clusters df2 = Ok (df4, counts) /\
                   getitem df4 "Rank_Bracket" = getitem df2 "Rank_Bracket").
Proof.
  do 2 eexists. split; [reflexivity|].
  exact (rank_brackets_leave_analyses deciles_of_three frame_three _ _ eq_refl).
Defined.
